(** * cf-content-types-generator: the definitions builder

    A shallow embedding of [src/cf-definitions-builder.ts] (the class
    [CFDefinitionsBuilder]) together with the part of the ts-morph [Project]
    interface the class drives, and the properties of the builder that the
    specification states.

    Layout of the development:
    - strings as JavaScript uses them here ([slice], [includes]);
    - the structures of ts-morph ([ImportDeclarationStructure], ...), a source
      file as its ordered list of top-level statements, and the project as the
      ordered list of its source files;
    - the completion monad [Builder]: the project is threaded as explicit
      state, and a [throw] keeps the mutations made before it, as a JavaScript
      exception does;
    - the builder's methods, one definition per method of the class;
    - the properties. *)

From Stdlib Require Import String Ascii List Bool Arith Lia.
Import ListNotations.
Open Scope string_scope.
Open Scope list_scope.

Set Implicit Arguments.

(** ** JavaScript strings *)

(** [s.slice(n)]: the string without its first [n] characters. *)
Fixpoint slice (n : nat) (s : string) : string :=
  match n, s with
  | 0, _ => s
  | S _, EmptyString => EmptyString
  | S k, String _ t => slice k t
  end.

(** [hay.includes(needle)]. *)
Fixpoint includes (needle hay : string) : bool :=
  if prefix needle hay then true
  else match hay with
       | EmptyString => false
       | String _ t => includes needle t
       end.

(** [xs.includes(x)] on an array of strings. *)
Definition arrayIncludes (xs : list string) (x : string) : bool :=
  existsb (String.eqb x) xs.

(** ** The input: content type descriptors *)

(** The attributes of contentful's [Field] that the builder reads itself
    ([id], [required], [omitted]) and those the renderers look at. *)
Record Field := mkField {
  field_id : string;
  field_name : string;
  field_type : string;
  field_linkType : option string;
  field_required : bool;
  field_omitted : bool
}.

Record Sys := mkSys {
  sys_id : string;
  sys_type : string
}.

Record CFContentType := mkContentType {
  ct_name : string;
  ct_id : string;
  sys : Sys;
  fields : list Field
}.

(** ** ts-morph structures *)

Record ImportDeclarationStructure := mkImport {
  moduleSpecifier : string;
  namespaceImport : option string;
  namedImports : list string;
  import_isTypeOnly : bool
}.

Record ExportDeclarationStructure := mkExport {
  namedExports : list string;
  export_moduleSpecifier : option string;
  export_isTypeOnly : bool
}.

Record PropertySignatureStructure := mkProperty {
  prop_name : string;
  hasQuestionToken : bool;
  prop_type : string
}.

Record InterfaceDeclarationStructure := mkInterface {
  interface_name : string;
  interface_isExported : bool;
  properties : list PropertySignatureStructure
}.

Record TypeAliasDeclarationStructure := mkTypeAlias {
  alias_name : string;
  alias_isExported : bool;
  alias_type : string
}.

(** The top-level statements the builder creates, as [getStructure] gives
    them.  A statement added as text ([addStatements]) is kept as its text;
    the one text the builder adds is an [export const] declaration, whose
    structure is a variable statement (the identifier in it is taken to hold
    no quote and no line break, so that the text is one statement). *)
Inductive Structure :=
| ImportDeclaration (i : ImportDeclarationStructure)
| ExportDeclaration (e : ExportDeclarationStructure)
| Interface (i : InterfaceDeclarationStructure)
| TypeAlias (a : TypeAliasDeclarationStructure)
| VariableStatement (text : string).

Inductive StructureKind :=
| KImportDeclaration
| KExportDeclaration
| KInterface
| KTypeAlias
| KVariableStatement.

Definition kind (s : Structure) : StructureKind :=
  match s with
  | ImportDeclaration _ => KImportDeclaration
  | ExportDeclaration _ => KExportDeclaration
  | Interface _ => KInterface
  | TypeAlias _ => KTypeAlias
  | VariableStatement _ => KVariableStatement
  end.

(** [StructureKind[k]]: the name of the enumeration member. *)
Definition kindName (k : StructureKind) : string :=
  match k with
  | KImportDeclaration => "ImportDeclaration"
  | KExportDeclaration => "ExportDeclaration"
  | KInterface => "Interface"
  | KTypeAlias => "TypeAlias"
  | KVariableStatement => "VariableStatement"
  end.

Definition isImport (s : Structure) : bool :=
  match s with ImportDeclaration _ => true | _ => false end.

Definition isExport (s : Structure) : bool :=
  match s with ExportDeclaration _ => true | _ => false end.

(** Statements that are neither imports nor exports: what [organizeImports]
    leaves alone. *)
Definition isDeclaration (s : Structure) : bool :=
  negb (isImport s || isExport s).

(** ** Source files and the project *)

(** A source file: the name it was created under (ts-morph's
    [getBaseNameWithoutExtension] of [<name>.ts]) and its statements in file
    order.  Names are taken to be plain module names: no path separator, so
    that all files live in the project's root directory. *)
Record SourceFile := mkSourceFile {
  baseName : string;
  statements : list Structure
}.

(** The project: its source files in the order [getSourceFiles] enumerates
    them. *)
Definition Project := list SourceFile.

Definition emptyProject : Project := [].

Definition fileNames (p : Project) : list string := map baseName p.

(** No two source files of a project share a path. *)
Definition wf (p : Project) : Prop := NoDup (fileNames p).

Definition hasName (n : string) (f : SourceFile) : bool :=
  String.eqb (baseName f) n.

Definition getFile (n : string) (p : Project) : option SourceFile :=
  find (hasName n) p.

Definition modifyFile (n : string) (g : list Structure -> list Structure)
    (p : Project) : Project :=
  map (fun f => if hasName n f
                then mkSourceFile (baseName f) (g (statements f))
                else f) p.

Fixpoint removeFile (n : string) (p : Project) : Project :=
  match p with
  | [] => []
  | f :: r => if hasName n f then r else f :: removeFile n r
  end.

Definition insertAt (k : nat) (f : SourceFile) (p : Project) : Project :=
  firstn k p ++ f :: skipn k p.

Definition filePath (n : string) : string := "/" ++ n ++ ".ts".

(** ** What is taken from the libraries and the sibling modules *)

Record FormatCodeSettings := mkSettings {
  ensureNewLineAtEndOfFile : bool
}.

(** ts-morph and the TypeScript language service, as far as the builder
    depends on them and this development does not fix them:
    - [place name names]: where [getSourceFiles] enumerates a newly created
      file among the existing ones (positions past the end mean the end);
    - [organize]: the effect of [organizeImports] on a file's statements.  It
      rewrites import and export declarations only, and every import it
      leaves comes from an import that was there;
    - [print]: [getFullText]. *)
Class TsMorph := {
  place : string -> list string -> nat;
  organize : FormatCodeSettings -> list Structure -> list Structure;
  print : list Structure -> string;
  organize_declarations : forall o ss,
    filter isDeclaration (organize o ss) = filter isDeclaration ss;
  organize_specifiers : forall o ss i,
    In (ImportDeclaration i) (organize o ss) ->
    exists j, In (ImportDeclaration j) ss /\
              moduleSpecifier j = moduleSpecifier i
}.

(** The functions imported from [./utils], [./renderer/*] and
    [./cf-property-imports]. *)
Class Collaborators := {
  moduleName : string -> string;
  moduleFieldsName : string -> string;
  moduleTypeIdName : string -> string;
  renderProp : Field -> string;
  renderGenericType : string -> string -> string;
  renderUnionType : list string -> string;
  propertyImports : Field -> string -> list ImportDeclarationStructure
}.

(** ** Completions: state passing with exceptions *)

Inductive JsError := Error (message : string).

Inductive Completion (A : Type) :=
| Normal (a : A)
| Thrown (e : JsError).

Arguments Normal {A} a.
Arguments Thrown {A} e.

Definition Builder (A : Type) : Type := Project -> Project * Completion A.

Definition ret {A} (a : A) : Builder A := fun p => (p, Normal a).

Definition throw {A} (e : JsError) : Builder A := fun p => (p, Thrown e).

Definition bind {A B} (m : Builder A) (k : A -> Builder B) : Builder B :=
  fun p => match m p with
           | (p', Normal a) => k a p'
           | (p', Thrown e) => (p', Thrown e)
           end.

Declare Scope builder_scope.
Delimit Scope builder_scope with builder.
Notation "x <- m ;; k" := (bind m (fun x => k))
  (at level 61, m at next level, right associativity) : builder_scope.
Notation "m ;; k" := (bind m (fun _ => k))
  (at level 61, right associativity) : builder_scope.
Open Scope builder_scope.

(** [xs.forEach(f)]. *)
Fixpoint forEach {A} (xs : list A) (f : A -> Builder unit) : Builder unit :=
  match xs with
  | [] => ret tt
  | x :: r => f x ;; forEach r f
  end.

(** A [forEach] whose body also updates local arrays [acc]. *)
Fixpoint forEachAcc {A S} (xs : list A) (f : S -> A -> Builder S) (acc : S)
    : Builder S :=
  match xs with
  | [] => ret acc
  | x :: r => acc' <- f acc x ;; forEachAcc r f acc'
  end.

Definition stateOf {A} (r : Project * Completion A) : Project := fst r.
Definition completionOf {A} (r : Project * Completion A) : Completion A :=
  snd r.

(** ** Editing the statements of one file *)

(** Where ts-morph inserts a new import declaration: right after the last
    import declaration of the file, at the top when there is none. *)
Fixpoint importInsertIndex (ss : list Structure) : nat :=
  match ss with
  | [] => 0
  | s :: r =>
      match importInsertIndex r with
      | 0 => if isImport s then 1 else 0
      | S k => S (S k)
      end
  end.

Definition insertImports (imps : list ImportDeclarationStructure)
    (ss : list Structure) : list Structure :=
  let k := importInsertIndex ss in
  firstn k ss ++ map ImportDeclaration imps ++ skipn k ss.

Definition insertImport (i : ImportDeclarationStructure)
    (ss : list Structure) : list Structure :=
  insertImports [i] ss.

(** Interfaces, type aliases, export declarations and statements given as
    text are appended at the end of the file. *)
Definition appendStatement (s : Structure) (ss : list Structure)
    : list Structure :=
  ss ++ [s].

(** [declaration.addProperty(...)]: the interface is found by its name. *)
Definition appendProperty (name : string) (pr : PropertySignatureStructure)
    (ss : list Structure) : list Structure :=
  map (fun s =>
         match s with
         | Interface i =>
             if String.eqb (interface_name i) name
             then Interface (mkInterface (interface_name i)
                               (interface_isExported i)
                               (properties i ++ [pr]))
             else s
         | _ => s
         end) ss.

(** ** The project's operations and the builder's methods *)

(** A [SourceFile] object held by the builder is a reference into the
    project: here, the name of the file.  An [InterfaceDeclaration] object is
    the file's reference and the interface's name. *)
Definition SourceFileRef := string.
Definition InterfaceRef := (SourceFileRef * string)%type.

Record WriteRequest := mkWrite {
  targetDir : string;
  relativePath : string;
  contents : string
}.

Section Builder.

Context {TS : TsMorph} {CO : Collaborators}.

(** [project.createSourceFile(`${name}.ts`, undefined, {overwrite: true})]:
    an existing file keeps its place and loses its text; a new file is
    enumerated where the project places it. *)
Definition createSourceFile (name : string) : Builder SourceFileRef :=
  fun p =>
    if existsb (hasName name) p
    then (modifyFile name (fun _ => []) p, Normal name)
    else (insertAt (place name (fileNames p)) (mkSourceFile name []) p,
          Normal name).

Definition getSourceFiles : Builder (list SourceFileRef) :=
  fun p => (p, Normal (fileNames p)).

Definition getSourceFile (test : SourceFileRef -> bool)
    : Builder (option SourceFileRef) :=
  fun p => (p, Normal (find test (fileNames p))).

Definition removeSourceFile (file : SourceFileRef) : Builder unit :=
  fun p => (removeFile file p, Normal tt).

Definition getBaseNameWithoutExtension (file : SourceFileRef) : string :=
  file.

Definition forgotten : JsError :=
  Error "Attempted to get information from a node that was removed or forgotten.".

Definition getStructure (file : SourceFileRef) : Builder (list Structure) :=
  fun p => match getFile file p with
           | Some f => (p, Normal (statements f))
           | None => (p, Thrown forgotten)
           end.

Definition getFullText (file : SourceFileRef) : Builder string :=
  fun p => match getFile file p with
           | Some f => (p, Normal (print (statements f)))
           | None => (p, Thrown forgotten)
           end.

Definition updateFile (file : SourceFileRef)
    (g : list Structure -> list Structure) : Builder unit :=
  fun p => (modifyFile file g p, Normal tt).

Definition addImportDeclaration (file : SourceFileRef)
    (i : ImportDeclarationStructure) : Builder unit :=
  updateFile file (insertImport i).

Definition addImportDeclarations (file : SourceFileRef)
    (imps : list ImportDeclarationStructure) : Builder unit :=
  updateFile file (insertImports imps).

Definition addExportDeclaration (file : SourceFileRef)
    (e : ExportDeclarationStructure) : Builder unit :=
  updateFile file (appendStatement (ExportDeclaration e)).

Definition addInterface (file : SourceFileRef)
    (i : InterfaceDeclarationStructure) : Builder InterfaceRef :=
  updateFile file (appendStatement (Interface i)) ;;
  ret (file, interface_name i).

Definition addTypeAlias (file : SourceFileRef)
    (a : TypeAliasDeclarationStructure) : Builder unit :=
  updateFile file (appendStatement (TypeAlias a)).

Definition addStatements (file : SourceFileRef) (texts : list string)
    : Builder unit :=
  forEach texts
    (fun t => updateFile file (appendStatement (VariableStatement t))).

Definition interfaceAddProperty (declaration : InterfaceRef)
    (pr : PropertySignatureStructure) : Builder unit :=
  updateFile (fst declaration) (appendProperty (snd declaration) pr).

Definition organizeImports (file : SourceFileRef) (o : FormatCodeSettings)
    : Builder unit :=
  updateFile file (organize o).

(** *** [CFDefinitionsBuilder] *)

Definition addFile (name : string) : Builder SourceFileRef :=
  createSourceFile name.

Definition createInterfaceDeclaration (file : SourceFileRef) (name : string)
    : Builder InterfaceRef :=
  addInterface file (mkInterface name true []).

Definition addDefaultImports (file : SourceFileRef) : Builder unit :=
  addImportDeclaration file
    (mkImport "contentful" (Some "Contentful") [] false) ;;
  addImportDeclaration file
    (mkImport "@src/types/contentful/static" None ["CMSEntry"] false).

Definition when (b : bool) (m : Builder unit) : Builder unit :=
  if b then m else ret tt.

Definition addProperty (file : SourceFileRef) (declaration : InterfaceRef)
    (field : Field) : Builder unit :=
  let type := renderProp field in
  interfaceAddProperty declaration
    (mkProperty (field_id field)
       (field_omitted field || negb (field_required field))
       type) ;;
  when (includes "Contentful." type)
    (addImportDeclaration file
       (mkImport "contentful" (Some "Contentful") [] false)) ;;
  when (includes "EntryLink" type)
    (addImportDeclaration file
       (mkImport "@src/types/contentful/static" None ["EntryLink"] false)) ;;
  addImportDeclaration file
    (mkImport "@contentful/rich-text-types" (Some "CFRichTextTypes") []
       false) ;;
  addImportDeclarations file
    (propertyImports field (getBaseNameWithoutExtension file)).

Definition addEntryTypeAlias (file : SourceFileRef)
    (aliasName entryType : string) : Builder unit :=
  let typeIdName := moduleTypeIdName (getBaseNameWithoutExtension file) in
  addStatements file
    [("export const " ++ typeIdName ++ " = '" ++ aliasName ++ "';")%string] ;;
  addTypeAlias file
    (mkTypeAlias (moduleName aliasName) true
       (renderGenericType "CMSEntry"
          ("typeof " ++ typeIdName ++ ", " ++ entryType)%string)).

Definition appendType (model : CFContentType) : Builder unit :=
  if negb (String.eqb (sys_type (sys model)) "ContentType")
  then throw (Error "given data is not describing a ContentType")
  else
    file <- addFile (moduleName (sys_id (sys model))) ;;
    addDefaultImports file ;;
    interfaceDeclaration <-
      createInterfaceDeclaration file
        (moduleFieldsName (sys_id (sys model))) ;;
    forEach (fields model)
      (fun field => addProperty file interfaceDeclaration field) ;;
    addEntryTypeAlias file (sys_id (sys model))
      (moduleFieldsName (sys_id (sys model))) ;;
    organizeImports file (mkSettings true).

Definition addIndexFile : Builder unit :=
  oldIndexFile <-
    getSourceFile
      (fun file => String.eqb (getBaseNameWithoutExtension file) "index") ;;
  match oldIndexFile with
  | Some f => removeSourceFile f
  | None => ret tt
  end ;;
  sourceFiles <- getSourceFiles ;;
  let files := map getBaseNameWithoutExtension sourceFiles in
  indexFile <- addFile "index" ;;
  addImportDeclaration indexFile
    (mkImport "@src/types/contentful/static" None ["CMSManagementEntry"]
       false) ;;
  cmsEntries <-
    forEachAcc files
      (fun cmsEntries fileName =>
         addImportDeclaration indexFile
           (mkImport ("./" ++ fileName)%string None
              [moduleName fileName; moduleFieldsName fileName] true) ;;
         addExportDeclaration indexFile
           (mkExport [moduleName fileName; moduleFieldsName fileName]
              None true) ;;
         addExportDeclaration indexFile
           (mkExport [moduleTypeIdName fileName]
              (Some ("./" ++ fileName)%string) false) ;;
         ret (cmsEntries ++ [moduleName fileName]))
      [] ;;
  addTypeAlias indexFile
    (mkTypeAlias "CMSEntries" true (renderUnionType cmsEntries)) ;;
  addTypeAlias indexFile
    (mkTypeAlias "CMSManagementEntries" true
       (renderUnionType
          (map (fun name => renderGenericType "CMSManagementEntry" name)
             cmsEntries))) ;;
  organizeImports indexFile (mkSettings false).

(** The body of the [switch] in [mergeFile], on one child structure.  The
    local arrays [imports] and [types] are threaded as a pair. *)
Definition mergeChild (mergeFile : SourceFileRef)
    (acc : list ImportDeclarationStructure * list string)
    (childStructure : Structure)
    : Builder (list ImportDeclarationStructure * list string) :=
  let '(imports, types) := acc in
  match childStructure with
  | ImportDeclaration i => ret (imports ++ [i], types)
  | Interface i =>
      addInterface mergeFile i ;;
      ret (imports, types ++ [interface_name i])
  | TypeAlias a =>
      addTypeAlias mergeFile a ;;
      ret (imports, types ++ [alias_name a])
  | other =>
      throw (Error ("Unhandled node type '" ++ kindName (kind other)
                    ++ "'.")%string)
  end.

Definition mergeFile (mergeFileName : string) : Builder SourceFileRef :=
  mergeFile <- addFile mergeFileName ;;
  sourceFiles <- getSourceFiles ;;
  acc <-
    forEachAcc
      (filter (fun sourceFile =>
                 negb (String.eqb (getBaseNameWithoutExtension sourceFile)
                         mergeFileName))
         sourceFiles)
      (fun acc sourceFile =>
         structure <- getStructure sourceFile ;;
         forEachAcc structure (mergeChild mergeFile) acc)
      ([], []) ;;
  let '(imports, types) := acc in
  forEach imports
    (fun importD =>
       let name := slice 2 (moduleSpecifier importD) in
       when (negb (arrayIncludes types name))
         (addImportDeclaration mergeFile importD)) ;;
  organizeImports mergeFile (mkSettings true) ;;
  ret mergeFile.

Definition toString : Builder string :=
  file <- mergeFile "ContentTypes" ;;
  getFullText file.

(** [write]: the index is rebuilt, then one write is issued per source file
    of the project; the result lists the writes ([path.resolve(dir, ...)] of
    the file path without its leading slash, and the file's text). *)
Definition write (dir : string) : Builder (list WriteRequest) :=
  addIndexFile ;;
  sourceFiles <- getSourceFiles ;;
  forEachAcc sourceFiles
    (fun writes file =>
       text <- getFullText file ;;
       ret (writes ++ [mkWrite dir (slice 1 (filePath file)) text]))
    [].

End Builder.

(** ** The builder's methods as functions on the statements of one file

    Every method works on one file through its reference.  The functions
    below are the same sequences of edits, on the statement list of that
    file; [appendType_run], [addIndexFile_run] and [mergeFile_run] relate
    them to the methods. *)

Section Statements.

Context {TS : TsMorph} {CO : Collaborators}.

(** The project with the file [name] holding the statements [ss]: in place
    when the file exists, where the project places it otherwise. *)
Definition setFile (name : string) (ss : list Structure) (p : Project)
    : Project :=
  if existsb (hasName name) p
  then modifyFile name (fun _ => ss) p
  else insertAt (place name (fileNames p)) (mkSourceFile name ss) p.

Definition propertySignature (field : Field) : PropertySignatureStructure :=
  mkProperty (field_id field)
    (field_omitted field || negb (field_required field))
    (renderProp field).

Definition onlyIf (b : bool) (g : list Structure -> list Structure)
    (ss : list Structure) : list Structure :=
  if b then g ss else ss.

(** The edits of [addProperty] for one field. *)
Definition propertyEdits (file iface : string) (field : Field)
    (ss : list Structure) : list Structure :=
  insertImports (propertyImports field file)
    (insertImport
       (mkImport "@contentful/rich-text-types" (Some "CFRichTextTypes") []
          false)
       (onlyIf (includes "EntryLink" (renderProp field))
          (insertImport
             (mkImport "@src/types/contentful/static" None ["EntryLink"]
                false))
          (onlyIf (includes "Contentful." (renderProp field))
             (insertImport
                (mkImport "contentful" (Some "Contentful") [] false))
             (appendProperty iface (propertySignature field) ss)))).

Definition defaultImports : list Structure :=
  [ImportDeclaration (mkImport "contentful" (Some "Contentful") [] false);
   ImportDeclaration
     (mkImport "@src/types/contentful/static" None ["CMSEntry"] false)].

Definition typeIdStatement (file aliasName : string) : Structure :=
  VariableStatement
    ("export const " ++ moduleTypeIdName file ++ " = '" ++ aliasName ++ "';").

Definition entryTypeAlias (file aliasName entryType : string) : Structure :=
  TypeAlias
    (mkTypeAlias (moduleName aliasName) true
       (renderGenericType "CMSEntry"
          ("typeof " ++ moduleTypeIdName file ++ ", " ++ entryType))).

(** The statements of an entity's file before [organizeImports]. *)
Definition entityDraft (model : CFContentType) : list Structure :=
  let id := sys_id (sys model) in
  let file := moduleName id in
  fold_left (fun ss field => propertyEdits file (moduleFieldsName id) field ss)
    (fields model)
    (defaultImports ++ [Interface (mkInterface (moduleFieldsName id) true [])])
  ++ [typeIdStatement file id; entryTypeAlias file id (moduleFieldsName id)].

(** The statements of the file [appendType] leaves for [model]. *)
Definition entityStatements (model : CFContentType) : list Structure :=
  organize (mkSettings true) (entityDraft model).

(** The edits of one round of the loop of [addIndexFile]. *)
Definition indexEntryEdits (fileName : string) (ss : list Structure)
    : list Structure :=
  insertImport
    (mkImport ("./" ++ fileName) None
       [moduleName fileName; moduleFieldsName fileName] true) ss
  ++ [ExportDeclaration
        (mkExport [moduleName fileName; moduleFieldsName fileName] None true);
      ExportDeclaration
        (mkExport [moduleTypeIdName fileName] (Some ("./" ++ fileName)%string)
           false)].

Definition cmsEntriesAlias (cmsEntries : list string) : Structure :=
  TypeAlias (mkTypeAlias "CMSEntries" true (renderUnionType cmsEntries)).

Definition cmsManagementEntriesAlias (cmsEntries : list string) : Structure :=
  TypeAlias
    (mkTypeAlias "CMSManagementEntries" true
       (renderUnionType
          (map (fun name => renderGenericType "CMSManagementEntry" name)
             cmsEntries))).

Definition indexDraft (files : list string) : list Structure :=
  fold_left (fun ss fileName => indexEntryEdits fileName ss) files
    [ImportDeclaration
       (mkImport "@src/types/contentful/static" None ["CMSManagementEntry"]
          false)]
  ++ [cmsEntriesAlias (map moduleName files);
      cmsManagementEntriesAlias (map moduleName files)].

Definition indexStatements (files : list string) : list Structure :=
  organize (mkSettings false) (indexDraft files).

(** The project without its index module, as [addIndexFile] enumerates it. *)
Definition withoutIndex (p : Project) : Project :=
  match find (fun file => String.eqb file "index") (fileNames p) with
  | Some f => removeFile f p
  | None => p
  end.

(** The modules of the project other than the index. *)
Definition entityFiles (p : Project) : Project :=
  filter (fun f => negb (hasName "index" f)) p.

(** The types of the type aliases called [name] among the statements. *)
Fixpoint aliasTypes (name : string) (ss : list Structure) : list string :=
  match ss with
  | [] => []
  | TypeAlias a :: r =>
      if String.eqb (alias_name a) name
      then alias_type a :: aliasTypes name r
      else aliasTypes name r
  | _ :: r => aliasTypes name r
  end.

(** The interfaces called [name] among the statements. *)
Fixpoint interfacesNamed (name : string) (ss : list Structure)
    : list InterfaceDeclarationStructure :=
  match ss with
  | [] => []
  | Interface i :: r =>
      if String.eqb (interface_name i) name
      then i :: interfacesNamed name r
      else interfacesNamed name r
  | _ :: r => interfacesNamed name r
  end.

(** The names of the interfaces and type aliases among the statements, in
    file order. *)
Fixpoint declaredNames (ss : list Structure) : list string :=
  match ss with
  | [] => []
  | Interface i :: r => interface_name i :: declaredNames r
  | TypeAlias a :: r => alias_name a :: declaredNames r
  | _ :: r => declaredNames r
  end.

Fixpoint importsOf (ss : list Structure) : list ImportDeclarationStructure :=
  match ss with
  | [] => []
  | ImportDeclaration i :: r => i :: importsOf r
  | _ :: r => importsOf r
  end.

End Statements.

(** The part of [mergeFile] that reads the source modules. *)

Definition supported (s : Structure) : bool :=
  match s with
  | ImportDeclaration _ | Interface _ | TypeAlias _ => true
  | _ => false
  end.

Definition isMerged (s : Structure) : bool :=
  match s with
  | Interface _ | TypeAlias _ => true
  | _ => false
  end.

(** The children visited before the first one the [switch] rejects. *)
Fixpoint visited (cs : list Structure) : list Structure :=
  match cs with
  | [] => []
  | c :: r => if supported c then c :: visited r else []
  end.

Definition unhandled (s : Structure) : JsError :=
  Error ("Unhandled node type '" ++ kindName (kind s) ++ "'.").

(** The statements of the file a reference denotes (none when the file is
    gone). *)
Definition statementsOf (p : Project) (file : SourceFileRef)
    : list Structure :=
  match getFile file p with
  | Some f => statements f
  | None => []
  end.

(** The references [mergeFile] walks, and their children in walk order. *)
Definition mergeSources (mergeFileName : string) (p : Project)
    : list SourceFileRef :=
  filter (fun sourceFile => negb (String.eqb sourceFile mergeFileName))
    (fileNames p).

Definition mergeChildren (mergeFileName : string) (p : Project)
    : list Structure :=
  flat_map (statementsOf p) (mergeSources mergeFileName p).

(** The test of the second loop of [mergeFile]. *)
Definition keepImport (types : list string) (i : ImportDeclarationStructure)
    : bool :=
  negb (arrayIncludes types (slice 2 (moduleSpecifier i))).

(** The statements of the merged file before [organizeImports], from the
    children of the source modules. *)
Definition mergedDraft (cs : list Structure) : list Structure :=
  fold_left
    (fun ss importD =>
       onlyIf (keepImport (declaredNames cs) importD) (insertImport importD) ss)
    (importsOf cs)
    (filter isMerged cs).

(** A specifier without its leading relative-path marker [./]. *)
Definition stripRelative (specifier : string) : string :=
  if prefix "./" specifier then slice 2 specifier else specifier.

(** ** Concrete collaborators

    The naming functions, the renderers and the language service are not
    part of [cf-definitions-builder.ts].  The instances below fix them, to
    run the builder on concrete descriptors. *)

Module SpecNaming.

Definition isLower (c : ascii) : bool :=
  Nat.leb 97 (nat_of_ascii c) && Nat.leb (nat_of_ascii c) 122.

Definition isUpper (c : ascii) : bool :=
  Nat.leb 65 (nat_of_ascii c) && Nat.leb (nat_of_ascii c) 90.

Definition isDigit (c : ascii) : bool :=
  Nat.leb 48 (nat_of_ascii c) && Nat.leb (nat_of_ascii c) 57.

Definition isAlnum (c : ascii) : bool := isLower c || isUpper c || isDigit c.

Definition upper (c : ascii) : ascii :=
  if isLower c then ascii_of_nat (nat_of_ascii c - 32) else c.

Fixpoint pascal (capitalize : bool) (s : string) : string :=
  match s with
  | EmptyString => EmptyString
  | String c t =>
      if isAlnum c
      then String (if capitalize then upper c else c) (pascal false t)
      else pascal true t
  end.

Fixpoint screaming (started afterLower : bool) (s : string) : string :=
  match s with
  | EmptyString => EmptyString
  | String c t =>
      if isAlnum c
      then (if started && (afterLower && isUpper c) then "_" else "")
           ++ String (upper c) (screaming true (isLower c || isDigit c) t)
      else (if started then "_" else "") ++ screaming false false t
  end.

(** The identifiers the naming is meant for (the expected identifier
    alphabet of section 4.1): letters and digits, not starting with a
    capital letter. *)
Fixpoint allAlnum (s : string) : bool :=
  match s with
  | EmptyString => true
  | String c t => isAlnum c && allAlnum t
  end.

Definition identifier (s : string) : bool :=
  match s with
  | EmptyString => false
  | String c t => (isLower c || isDigit c) && allAlnum t
  end.

(** Modelled from the spec: [moduleName] of [./utils], which is not in the
    sources.  Section 4.1: the PascalCase entity type name of a raw
    identifier ([post] gives [Post]), free of collisions on the expected
    identifier alphabet ([moduleName_collision_free] below, on
    [identifier]s). *)
Definition moduleName (id : string) : string := pascal true id.

(** Modelled from the spec: [moduleFieldsName] of [./utils].  Section 4.1:
    the entity name followed by a suffix denoting fields ([post] gives
    [PostFields]). *)
Definition moduleFieldsName (id : string) : string :=
  moduleName id ++ "Fields".

(** Modelled from the spec: [moduleTypeIdName] of [./utils].  Section 4.1:
    the SCREAMING_SNAKE name of the type-id constant ([post] gives
    [POST_TYPE_ID]). *)
Definition moduleTypeIdName (id : string) : string :=
  screaming false false id ++ "_TYPE_ID".

(** Modelled from the spec: [renderGenericType] of [./renderer], from the
    scenario of section 8 ([CMSEntry<typeof POST_TYPE_ID, PostFields>]). *)
Definition renderGenericType (name arguments : string) : string :=
  name ++ "<" ++ arguments ++ ">".

(** Modelled from the spec: [renderUnionType] of [./renderer], from the
    scenario of section 8 ([Post | Author]). *)
Definition renderUnionType (members : list string) : string :=
  String.concat " | " members.

(** Modelled from the spec: [renderProp] of [./renderer], which the spec
    keeps opaque; here the field type inside the rendering namespace. *)
Definition renderProp (field : Field) : string :=
  "Contentful.EntryFields." ++ field_type field.

(** Modelled from the spec: [propertyImports] of [./cf-property-imports],
    which the spec keeps opaque; here a link field imports the fields
    interface of the linked module, unless that is the current module. *)
Definition propertyImports (field : Field) (currentModule : string)
    : list ImportDeclarationStructure :=
  match field_linkType field with
  | Some target =>
      if String.eqb (moduleName target) currentModule then []
      else [mkImport ("./" ++ moduleName target)%string None
              [moduleFieldsName target] false]
  | None => []
  end.

Definition collaborators : Collaborators :=
  Build_Collaborators moduleName moduleFieldsName moduleTypeIdName renderProp
    renderGenericType renderUnionType propertyImports.

Lemma pascal_false_alnum (s : string) :
  allAlnum s = true -> pascal false s = s.
Proof.
  induction s as [|c t IH]; simpl; [reflexivity|].
  intros H. apply andb_prop in H. destruct H as [Hc Ht].
  rewrite Hc, (IH Ht). reflexivity.
Qed.

Lemma upper_injective (c d : ascii) :
  isLower c || isDigit c = true -> isLower d || isDigit d = true ->
  upper c = upper d -> c = d.
Proof.
  unfold upper, isLower, isDigit. intros Hc Hd E.
  pose proof (nat_ascii_bounded c) as Bc.
  pose proof (nat_ascii_bounded d) as Bd.
  rewrite <- (ascii_nat_embedding c), <- (ascii_nat_embedding d).
  f_equal.
  destruct (Nat.leb 97 (nat_of_ascii c) && Nat.leb (nat_of_ascii c) 122)
    eqn:Lc;
    destruct (Nat.leb 97 (nat_of_ascii d) && Nat.leb (nat_of_ascii d) 122)
      eqn:Ld;
    simpl in Hc, Hd;
    repeat match goal with
           | H : _ && _ = true |- _ =>
               apply andb_prop in H; destruct H
           | H : Nat.leb _ _ = true |- _ => apply Nat.leb_le in H
           end;
    apply (f_equal nat_of_ascii) in E;
    rewrite ?nat_ascii_embedding in E by lia; lia.
Qed.

(** On identifiers, distinct inputs get distinct module names. *)
Lemma moduleName_collision_free (a b : string) :
  identifier a = true -> identifier b = true ->
  moduleName a = moduleName b -> a = b.
Proof.
  destruct a as [|c s]; [discriminate|].
  destruct b as [|d t]; [discriminate|].
  unfold moduleName. simpl. intros Ha Hb.
  apply andb_prop in Ha. destruct Ha as [Hc Hs].
  apply andb_prop in Hb. destruct Hb as [Hd Ht].
  assert (Ac : isAlnum c = true).
  { unfold isAlnum. apply orb_prop in Hc. destruct Hc as [-> | ->];
      [reflexivity | apply orb_true_r]. }
  assert (Ad : isAlnum d = true).
  { unfold isAlnum. apply orb_prop in Hd. destruct Hd as [-> | ->];
      [reflexivity | apply orb_true_r]. }
  rewrite Ac, Ad, (pascal_false_alnum _ Hs), (pascal_false_alnum _ Ht).
  intros E. injection E as Eu Et.
  rewrite (upper_injective c d Hc Hd Eu), Et. reflexivity.
Qed.

End SpecNaming.

Module SampleProject.

(** A project that enumerates its files by name, as ts-morph keeps the files
    of a directory (sorted by base name, compared as the locale
    [en-us-u-kf-upper] does), with a language service that keeps the first
    import of every specifier.  On names of letters and digits that
    comparison is: letter by letter without regard to case, a name before
    the names it is a prefix of, and upper case first between names that
    differ by case only. *)

(** Lexicographic comparison of two names by a key of their characters. *)
Fixpoint compareBy (key : ascii -> nat) (a b : string) : comparison :=
  match a with
  | EmptyString =>
      match b with
      | EmptyString => Eq
      | String _ _ => Lt
      end
  | String x a' =>
      match b with
      | EmptyString => Gt
      | String y b' =>
          match Nat.compare (key x) (key y) with
          | Eq => compareBy key a' b'
          | r => r
          end
      end
  end.

(** Without regard to case first; then, between names that differ by case
    only, by character code, where capitals come first. *)
Definition compareNames (a b : string) : comparison :=
  match compareBy (fun c => nat_of_ascii (SpecNaming.upper c)) a b with
  | Eq => compareBy nat_of_ascii a b
  | r => r
  end.

Definition sortsBefore (a b : string) : bool :=
  match compareNames a b with
  | Gt => false
  | _ => true
  end.

(** A new file goes after the files whose names sort before its own. *)
Definition place (name : string) (names : list string) : nat :=
  length (filter (fun n => sortsBefore n name) names).

Fixpoint dedupImports (seen : list string) (ss : list Structure)
    : list Structure :=
  match ss with
  | [] => []
  | ImportDeclaration i :: r =>
      if arrayIncludes seen (moduleSpecifier i)
      then dedupImports seen r
      else ImportDeclaration i :: dedupImports (moduleSpecifier i :: seen) r
  | s :: r => s :: dedupImports seen r
  end.

Definition organize (o : FormatCodeSettings) (ss : list Structure)
    : list Structure :=
  dedupImports [] ss.

Definition newline : string := String (ascii_of_nat 10) EmptyString.

Definition printImport (i : ImportDeclarationStructure) : string :=
  "import " ++ (if import_isTypeOnly i then "type " else "")
  ++ match namespaceImport i with
     | Some n => "* as " ++ n
     | None => "{ " ++ String.concat ", " (namedImports i) ++ " }"
     end
  ++ " from '" ++ moduleSpecifier i ++ "';".

Definition printExport (e : ExportDeclarationStructure) : string :=
  "export " ++ (if export_isTypeOnly e then "type " else "")
  ++ "{ " ++ String.concat ", " (namedExports e) ++ " }"
  ++ match export_moduleSpecifier e with
     | Some m => " from '" ++ m ++ "'"
     | None => ""
     end
  ++ ";".

Definition printProperty (pr : PropertySignatureStructure) : string :=
  "    " ++ prop_name pr ++ (if hasQuestionToken pr then "?" else "")
  ++ ": " ++ prop_type pr ++ ";" ++ newline.

Definition exported (b : bool) : string := if b then "export " else "".

Definition printStatement (s : Structure) : string :=
  match s with
  | ImportDeclaration i => printImport i
  | ExportDeclaration e => printExport e
  | Interface i =>
      exported (interface_isExported i) ++ "interface " ++ interface_name i
      ++ " {" ++ newline
      ++ String.concat "" (map printProperty (properties i)) ++ "}"
  | TypeAlias a =>
      exported (alias_isExported a) ++ "type " ++ alias_name a ++ " = "
      ++ alias_type a ++ ";"
  | VariableStatement text => text
  end.

Definition print (ss : list Structure) : string :=
  String.concat "" (map (fun s => (printStatement s ++ newline)%string) ss).

Lemma dedupImports_declarations (seen : list string) (ss : list Structure) :
  filter isDeclaration (dedupImports seen ss) = filter isDeclaration ss.
Proof.
  revert seen.
  induction ss as [|s r IH]; intros seen; simpl; [reflexivity|].
  destruct s; simpl; try (rewrite IH; reflexivity).
  destruct (arrayIncludes seen (moduleSpecifier i)); simpl; apply IH.
Qed.

Lemma dedupImports_specifiers (seen : list string) (ss : list Structure)
    (i : ImportDeclarationStructure) :
  In (ImportDeclaration i) (dedupImports seen ss) ->
  In (ImportDeclaration i) ss.
Proof.
  revert seen.
  induction ss as [|s r IH]; intros seen; simpl; [tauto|].
  destruct s; simpl;
    try (intros [H|H]; [left; exact H | right; exact (IH _ H)]).
  destruct (arrayIncludes seen (moduleSpecifier i0)); simpl.
  - intros H. right. exact (IH _ H).
  - intros [H|H]; [left; exact H | right; exact (IH _ H)].
Qed.

Definition tsMorph : TsMorph :=
  Build_TsMorph place organize print
    (fun _ ss => dedupImports_declarations [] ss)
    (fun _ ss i H =>
       ex_intro _ i (conj (dedupImports_specifiers [] ss i H) eq_refl)).

End SampleProject.

(** The descriptor of the scenario of section 8: [post], with the required
    text field [title]. *)
Definition titleField : Field :=
  mkField "title" "Title" "Text" None true false.

Definition postType : CFContentType :=
  mkContentType "Post" "post" (mkSys "post" "ContentType") [titleField].

Definition authorType : CFContentType :=
  mkContentType "Author" "author" (mkSys "author" "ContentType")
    [mkField "name" "Name" "Symbol" None false false].

Definition assetType : CFContentType :=
  mkContentType "Asset" "asset" (mkSys "asset" "Asset") [].

(** * Properties *)

(** ** Lists of statements *)

Lemma importInsertIndex_imports (imps decls : list Structure) :
  forallb isImport imps = true ->
  forallb (fun s => negb (isImport s)) decls = true ->
  importInsertIndex (imps ++ decls) = length imps.
Proof.
  intros Hi Hd.
  assert (H0 : importInsertIndex decls = 0).
  { clear Hi. induction decls as [|d r IH]; simpl in *; [reflexivity|].
    apply andb_prop in Hd. destruct Hd as [Hd Hr].
    rewrite (IH Hr). destruct (isImport d); [discriminate|reflexivity]. }
  induction imps as [|s r IH]; simpl in *; [exact H0|].
  apply andb_prop in Hi. destruct Hi as [Hs Hr].
  rewrite (IH Hr), Hs. destruct r; reflexivity.
Qed.

Lemma insertImports_imports (new : list ImportDeclarationStructure)
    (imps decls : list Structure) :
  forallb isImport imps = true ->
  forallb (fun s => negb (isImport s)) decls = true ->
  insertImports new (imps ++ decls)
  = (imps ++ map ImportDeclaration new) ++ decls.
Proof.
  intros Hi Hd. unfold insertImports.
  rewrite (importInsertIndex_imports _ _ Hi Hd).
  rewrite firstn_app, skipn_app, firstn_all, skipn_all, Nat.sub_diag.
  simpl. rewrite app_nil_r, <- app_assoc. reflexivity.
Qed.

Lemma forallb_isImport_app (a b : list Structure) :
  forallb isImport a = true -> forallb isImport b = true ->
  forallb isImport (a ++ b) = true.
Proof. intros Ha Hb. rewrite forallb_app, Ha, Hb. reflexivity. Qed.

Lemma forallb_isImport_map (new : list ImportDeclarationStructure) :
  forallb isImport (map ImportDeclaration new) = true.
Proof. induction new; simpl; auto. Qed.

Lemma appendProperty_imports (name : string) (pr : PropertySignatureStructure)
    (imps : list Structure) :
  forallb isImport imps = true -> appendProperty name pr imps = imps.
Proof.
  unfold appendProperty.
  induction imps as [|s r IH]; simpl; [reflexivity|].
  intros H. apply andb_prop in H. destruct H as [Hs Hr].
  rewrite (IH Hr). destruct s; try discriminate; reflexivity.
Qed.

Lemma filter_isDeclaration_imports (imps rest : list Structure) :
  forallb isImport imps = true ->
  filter isDeclaration (imps ++ rest) = filter isDeclaration rest.
Proof.
  induction imps as [|s r IH]; simpl; [reflexivity|].
  intros H. apply andb_prop in H. destruct H as [Hs Hr].
  unfold isDeclaration at 1. rewrite Hs. simpl. exact (IH Hr).
Qed.

Lemma aliasTypes_filter (name : string) (ss : list Structure) :
  aliasTypes name (filter isDeclaration ss) = aliasTypes name ss.
Proof.
  induction ss as [|s r IH]; simpl; [reflexivity|].
  destruct s; simpl; try exact IH.
  destruct (String.eqb (alias_name a) name); [rewrite IH|]; auto.
Qed.

Lemma interfacesNamed_filter (name : string) (ss : list Structure) :
  interfacesNamed name (filter isDeclaration ss) = interfacesNamed name ss.
Proof.
  induction ss as [|s r IH]; simpl; [reflexivity|].
  destruct s; simpl; try exact IH.
  destruct (String.eqb (interface_name i) name); [rewrite IH|]; auto.
Qed.

Lemma declaredNames_filter (ss : list Structure) :
  declaredNames (filter isDeclaration ss) = declaredNames ss.
Proof.
  induction ss as [|s r IH]; simpl; [reflexivity|].
  destruct s; simpl; try exact IH; rewrite IH; reflexivity.
Qed.

Lemma declaredNames_app (a b : list Structure) :
  declaredNames (a ++ b) = declaredNames a ++ declaredNames b.
Proof.
  induction a as [|s r IH]; simpl; [reflexivity|].
  destruct s; simpl; rewrite ?IH; reflexivity.
Qed.

Lemma importsOf_app (a b : list Structure) :
  importsOf (a ++ b) = importsOf a ++ importsOf b.
Proof.
  induction a as [|s r IH]; simpl; [reflexivity|].
  destruct s; simpl; rewrite ?IH; reflexivity.
Qed.

Lemma In_importsOf (i : ImportDeclarationStructure) (ss : list Structure) :
  In i (importsOf ss) <-> In (ImportDeclaration i) ss.
Proof.
  induction ss as [|s r IH]; simpl; [tauto|].
  destruct s; simpl; rewrite IH; intuition congruence.
Qed.

(** ** The project as a store of files *)

Lemma hasName_true (n : string) (f : SourceFile) :
  hasName n f = true <-> baseName f = n.
Proof. unfold hasName. apply String.eqb_eq. Qed.

Lemma hasName_false (n : string) (f : SourceFile) :
  hasName n f = false <-> baseName f <> n.
Proof. unfold hasName. apply String.eqb_neq. Qed.

Lemma existsb_hasName (n : string) (p : Project) :
  existsb (hasName n) p = true <-> In n (fileNames p).
Proof.
  rewrite existsb_exists. unfold fileNames. rewrite in_map_iff.
  split; intros [f [H1 H2]]; exists f.
  - apply hasName_true in H2. tauto.
  - split; [tauto|]. apply hasName_true. tauto.
Qed.

Lemma existsb_hasName_false (n : string) (p : Project) :
  existsb (hasName n) p = false <-> ~ In n (fileNames p).
Proof.
  rewrite <- existsb_hasName. destruct (existsb (hasName n) p); split;
    congruence.
Qed.

Lemma fileNames_modifyFile (n : string) g (p : Project) :
  fileNames (modifyFile n g p) = fileNames p.
Proof.
  unfold fileNames, modifyFile. rewrite map_map. apply map_ext.
  intros f. destruct (hasName n f); reflexivity.
Qed.

Lemma modifyFile_modifyFile (n : string) g1 g2 (p : Project) :
  modifyFile n g2 (modifyFile n g1 p)
  = modifyFile n (fun ss => g2 (g1 ss)) p.
Proof.
  unfold modifyFile. rewrite map_map. apply map_ext. intros f.
  destruct (hasName n f) eqn:E; simpl.
  - unfold hasName in *. simpl. rewrite E. reflexivity.
  - rewrite E. reflexivity.
Qed.

Lemma modifyFile_absent (n : string) g (p : Project) :
  existsb (hasName n) p = false -> modifyFile n g p = p.
Proof.
  induction p as [|f r IH]; simpl; [reflexivity|].
  intros H. apply orb_false_elim in H. destruct H as [Hf Hr].
  rewrite Hf, (IH Hr). reflexivity.
Qed.

Lemma modifyFile_insertAt (n : string) g (k : nat) (ss : list Structure)
    (p : Project) :
  existsb (hasName n) p = false ->
  modifyFile n g (insertAt k (mkSourceFile n ss) p)
  = insertAt k (mkSourceFile n (g ss)) p.
Proof.
  intros H. unfold insertAt.
  rewrite <- (firstn_skipn k p), existsb_app in H.
  apply orb_false_elim in H. destruct H as [H1 H2].
  unfold modifyFile at 1. rewrite map_app. simpl.
  fold (modifyFile n g (firstn k p)). fold (modifyFile n g (skipn k p)).
  rewrite !modifyFile_absent by assumption.
  unfold hasName. simpl. rewrite String.eqb_refl. reflexivity.
Qed.

Lemma getFile_modifyFile_other (n m : string) g (p : Project) :
  n <> m -> getFile n (modifyFile m g p) = getFile n p.
Proof.
  intros Hnm. unfold getFile.
  induction p as [|f r IH]; simpl; [reflexivity|].
  destruct (hasName m f) eqn:Em; simpl.
  - apply hasName_true in Em.
    assert (E : hasName n f = false) by (apply hasName_false; congruence).
    unfold hasName in *. simpl. rewrite E. exact IH.
  - destruct (hasName n f); [reflexivity | exact IH].
Qed.

Lemma getFile_insertAt_other (n : string) (k : nat) (f : SourceFile)
    (p : Project) :
  baseName f <> n -> getFile n (insertAt k f p) = getFile n p.
Proof.
  intros Hn. unfold getFile, insertAt.
  rewrite <- (firstn_skipn k p) at 3.
  generalize (firstn k p) as a. intros a.
  induction a as [|x a IH]; simpl.
  - apply hasName_false in Hn. rewrite Hn. reflexivity.
  - destruct (hasName n x); [reflexivity | exact IH].
Qed.

Lemma getFile_insertAt_same (k : nat) (f : SourceFile) (p : Project) :
  existsb (hasName (baseName f)) p = false ->
  getFile (baseName f) (insertAt k f p) = Some f.
Proof.
  intros H. unfold getFile, insertAt.
  rewrite <- (firstn_skipn k p), existsb_app in H.
  apply orb_false_elim in H. destruct H as [H1 _].
  revert H1. generalize (firstn k p) as a. intros a.
  induction a as [|x a IH]; simpl.
  - intros _. unfold hasName. rewrite String.eqb_refl. reflexivity.
  - intros H. apply orb_false_elim in H. destruct H as [Hx Ha].
    rewrite Hx. exact (IH Ha).
Qed.

Lemma getFile_modifyFile_same (n : string) g (p : Project) :
  getFile n (modifyFile n g p)
  = option_map (fun f => mkSourceFile (baseName f) (g (statements f)))
      (getFile n p).
Proof.
  unfold getFile. induction p as [|f r IH]; simpl; [reflexivity|].
  destruct (hasName n f) eqn:E; simpl.
  - unfold hasName in *. simpl. rewrite E. reflexivity.
  - rewrite E. exact IH.
Qed.

Lemma getFile_Some_name (n : string) (p : Project) (f : SourceFile) :
  getFile n p = Some f -> baseName f = n /\ In f p.
Proof.
  unfold getFile. intros H. apply find_some in H. destruct H as [H1 H2].
  apply hasName_true in H2. tauto.
Qed.

Lemma getFile_In (p : Project) (f : SourceFile) :
  wf p -> In f p -> getFile (baseName f) p = Some f.
Proof.
  unfold wf, getFile. induction p as [|x r IH]; simpl; [tauto|].
  intros Hwf [H|H].
  - subst x. unfold hasName. rewrite String.eqb_refl. reflexivity.
  - inversion Hwf as [|? ? Hx Hr]; subst.
    destruct (hasName (baseName f) x) eqn:E.
    + apply hasName_true in E. exfalso. apply Hx. rewrite E.
      unfold fileNames. apply in_map. exact H.
    + exact (IH Hr H).
Qed.

Section StoreLaws.

Context {TS : TsMorph}.

Lemma modifyFile_setFile (n : string) g (ss : list Structure) (p : Project) :
  modifyFile n g (setFile n ss p) = setFile n (g ss) p.
Proof.
  unfold setFile. destruct (existsb (hasName n) p) eqn:E.
  - apply modifyFile_modifyFile.
  - apply modifyFile_insertAt. exact E.
Qed.

Lemma fileNames_setFile_In (n : string) (ss : list Structure) (p : Project) :
  In n (fileNames (setFile n ss p)).
Proof.
  unfold setFile. destruct (existsb (hasName n) p) eqn:E.
  - rewrite fileNames_modifyFile. apply existsb_hasName. exact E.
  - unfold insertAt, fileNames. rewrite map_app. apply in_or_app. right.
    left. reflexivity.
Qed.

Lemma fileNames_setFile (n m : string) (ss : list Structure) (p : Project) :
  In m (fileNames (setFile n ss p)) <-> m = n \/ In m (fileNames p).
Proof.
  unfold setFile. destruct (existsb (hasName n) p) eqn:E.
  - rewrite fileNames_modifyFile. apply existsb_hasName in E.
    split; [tauto|]. intros [H|H]; [subst; exact E | exact H].
  - unfold insertAt, fileNames. rewrite map_app, in_app_iff. simpl.
    rewrite <- (firstn_skipn (place n (map baseName p)) p) at 5.
    rewrite map_app, in_app_iff. intuition congruence.
Qed.

Lemma getFile_setFile_same (n : string) (ss : list Structure) (p : Project) :
  getFile n (setFile n ss p) = Some (mkSourceFile n ss).
Proof.
  unfold setFile. destruct (existsb (hasName n) p) eqn:E.
  - rewrite getFile_modifyFile_same.
    apply existsb_exists in E. destruct E as [f [Hf Hn]].
    destruct (getFile n p) as [x|] eqn:G.
    + apply getFile_Some_name in G. destruct G as [G _]. simpl.
      rewrite G. reflexivity.
    + unfold getFile in G. exfalso.
      exact (eq_true_false_abs _ Hn (find_none _ _ G _ Hf)).
  - apply (getFile_insertAt_same _ (mkSourceFile n ss)). exact E.
Qed.

Lemma getFile_setFile_other (n m : string) (ss : list Structure)
    (p : Project) :
  m <> n -> getFile m (setFile n ss p) = getFile m p.
Proof.
  intros H. unfold setFile. destruct (existsb (hasName n) p).
  - apply getFile_modifyFile_other. exact H.
  - apply getFile_insertAt_other. simpl. congruence.
Qed.

Lemma wf_setFile (n : string) (ss : list Structure) (p : Project) :
  wf p -> wf (setFile n ss p).
Proof.
  unfold wf, setFile. intros H. destruct (existsb (hasName n) p) eqn:E.
  - rewrite fileNames_modifyFile. exact H.
  - apply existsb_hasName_false in E. unfold insertAt, fileNames in *.
    rewrite map_app. simpl.
    apply (proj2 (NoDup_Add (Add_app n _ _))).
    rewrite <- map_app, firstn_skipn. tauto.
Qed.

Lemma setFile_setFile (n : string) (ss ss' : list Structure) (p : Project) :
  setFile n ss' (setFile n ss p) = setFile n ss' p.
Proof.
  unfold setFile at 1.
  assert (H : existsb (hasName n) (setFile n ss p) = true).
  { apply existsb_hasName. apply fileNames_setFile_In. }
  rewrite H. apply modifyFile_setFile.
Qed.

End StoreLaws.

(** ** Methods that edit one file *)

Section Runs.

Context {TS : TsMorph} {CO : Collaborators}.

(** [m] changes the statements of [file] by [g], returns [a], and leaves the
    other files and the enumeration order alone. *)
Definition Edits {A} (m : Builder A) (file : string)
    (g : list Structure -> list Structure) (a : A) : Prop :=
  forall ss p, m (setFile file ss p) = (setFile file (g ss) p, Normal a).

Lemma Edits_ret {A} (a : A) (file : string) :
  Edits (ret a) file (fun ss => ss) a.
Proof. intros ss p. reflexivity. Qed.

Lemma Edits_updateFile (file : string) g : Edits (updateFile file g) file g tt.
Proof.
  intros ss p. unfold updateFile. rewrite modifyFile_setFile. reflexivity.
Qed.

Lemma Edits_bind {A B} (m : Builder A) (k : A -> Builder B) (file : string)
    g h (a : A) (b : B) :
  Edits m file g a -> Edits (k a) file h b ->
  Edits (bind m k) file (fun ss => h (g ss)) b.
Proof.
  intros Hm Hk ss p. unfold bind. rewrite Hm. apply Hk.
Qed.

Lemma Edits_ext {A} (m : Builder A) (file : string) g g' (a : A) :
  (forall ss, g ss = g' ss) -> Edits m file g a -> Edits m file g' a.
Proof. intros E H ss p. rewrite H, E. reflexivity. Qed.

Lemma Edits_when (b : bool) (m : Builder unit) (file : string) g :
  Edits m file g tt -> Edits (when b m) file (onlyIf b g) tt.
Proof.
  intros H. destruct b; simpl; [exact H | apply Edits_ret].
Qed.

Lemma Edits_forEachAcc {A S} (xs : list A) (body : S -> A -> Builder S)
    (file : string) (g : A -> list Structure -> list Structure)
    (h : S -> A -> S) :
  (forall acc x, Edits (body acc x) file (g x) (h acc x)) ->
  forall acc,
    Edits (forEachAcc xs body acc) file
      (fun ss => fold_left (fun ss x => g x ss) xs ss)
      (fold_left h xs acc).
Proof.
  intros Hb. induction xs as [|x r IH]; intros acc; simpl.
  - apply Edits_ret.
  - intros ss p. unfold bind. rewrite Hb. apply IH.
Qed.

Lemma Edits_forEach {A} (xs : list A) (body : A -> Builder unit)
    (file : string) (g : A -> list Structure -> list Structure) :
  (forall x, Edits (body x) file (g x) tt) ->
  Edits (forEach xs body) file
    (fun ss => fold_left (fun ss x => g x ss) xs ss) tt.
Proof.
  intros Hb. induction xs as [|x r IH]; simpl.
  - apply Edits_ret.
  - intros ss p. unfold bind. rewrite Hb. apply IH.
Qed.

Lemma createSourceFile_run (name : string) (p : Project) :
  createSourceFile name p = (setFile name [] p, Normal name).
Proof.
  unfold createSourceFile, setFile.
  destruct (existsb (hasName name) p); reflexivity.
Qed.

Lemma addProperty_edits (file iface : string) (field : Field) :
  Edits (addProperty file (file, iface) field) file
    (propertyEdits file iface field) tt.
Proof.
  unfold addProperty, propertyEdits, interfaceAddProperty,
    addImportDeclaration, addImportDeclarations.
  eapply Edits_ext;
    [| repeat (eapply Edits_bind || apply Edits_when
               || apply Edits_updateFile) ].
  intros ss. reflexivity.
Qed.

Lemma appendType_run (model : CFContentType) (p : Project) :
  sys_type (sys model) = "ContentType" ->
  appendType model p
  = (setFile (moduleName (sys_id (sys model))) (entityStatements model) p,
     Normal tt).
Proof.
  intros Hv. unfold appendType. rewrite Hv. simpl.
  unfold bind at 1. unfold addFile. rewrite createSourceFile_run.
  assert (E : Edits
    (addDefaultImports (moduleName (sys_id (sys model))) ;;
     interfaceDeclaration <-
       createInterfaceDeclaration (moduleName (sys_id (sys model)))
         (moduleFieldsName (sys_id (sys model))) ;;
     forEach (fields model)
       (fun field =>
          addProperty (moduleName (sys_id (sys model))) interfaceDeclaration
            field) ;;
     addEntryTypeAlias (moduleName (sys_id (sys model)))
       (sys_id (sys model)) (moduleFieldsName (sys_id (sys model))) ;;
     organizeImports (moduleName (sys_id (sys model))) (mkSettings true))
    (moduleName (sys_id (sys model)))
    (fun ss =>
       organize (mkSettings true)
         ((fold_left
             (fun ss field =>
                propertyEdits (moduleName (sys_id (sys model)))
                  (moduleFieldsName (sys_id (sys model))) field ss)
             (fields model)
             (insertImport
                (mkImport "@src/types/contentful/static" None ["CMSEntry"]
                   false)
                (insertImport
                   (mkImport "contentful" (Some "Contentful") [] false) ss)
              ++ [Interface
                    (mkInterface (moduleFieldsName (sys_id (sys model)))
                       true [])])
           ++ [typeIdStatement (moduleName (sys_id (sys model)))
                 (sys_id (sys model))])
          ++ [entryTypeAlias (moduleName (sys_id (sys model)))
                (sys_id (sys model))
                (moduleFieldsName (sys_id (sys model)))]))
    tt).
  { unfold addDefaultImports, createInterfaceDeclaration, addInterface,
      addEntryTypeAlias, addStatements, addTypeAlias, organizeImports,
      addImportDeclaration, forEach at 2.
    eapply Edits_ext;
      [| repeat (eapply Edits_bind || apply Edits_updateFile
                 || apply Edits_ret
                 || (apply Edits_forEach; intros; apply addProperty_edits)) ].
    intros ss. reflexivity. }
  rewrite E. unfold entityStatements, entityDraft.
  rewrite <- app_assoc. reflexivity.
Qed.

End Runs.

(** ** The file of one entity *)

Section Entity.

Context {TS : TsMorph} {CO : Collaborators}.

Lemma insertImport_imports (i : ImportDeclarationStructure)
    (imps decls : list Structure) :
  forallb isImport imps = true ->
  forallb (fun s => negb (isImport s)) decls = true ->
  insertImport i (imps ++ decls) = (imps ++ [ImportDeclaration i]) ++ decls.
Proof. intros Hi Hd. apply (insertImports_imports [i]); assumption. Qed.

Lemma propertyEdits_shape (file iface : string) (field : Field)
    (imps : list Structure) (props : list PropertySignatureStructure) :
  forallb isImport imps = true ->
  exists imps',
    forallb isImport imps' = true /\
    propertyEdits file iface field
      (imps ++ [Interface (mkInterface iface true props)])
    = imps' ++ [Interface
                  (mkInterface iface true
                     (props ++ [propertySignature field]))].
Proof.
  intros Hi. unfold propertyEdits.
  assert (E : appendProperty iface (propertySignature field)
                (imps ++ [Interface (mkInterface iface true props)])
              = imps ++ [Interface
                           (mkInterface iface true
                              (props ++ [propertySignature field]))]).
  { unfold appendProperty. rewrite map_app.
    fold (appendProperty iface (propertySignature field) imps).
    rewrite appendProperty_imports by exact Hi.
    simpl. rewrite String.eqb_refl. reflexivity. }
  rewrite E. clear E.
  set (I := Interface
              (mkInterface iface true (props ++ [propertySignature field]))).
  assert (HI : forallb (fun s => negb (isImport s)) [I] = true)
    by reflexivity.
  assert (S1 : exists a, forallb isImport a = true /\
    onlyIf (includes "Contentful." (renderProp field))
      (insertImport (mkImport "contentful" (Some "Contentful") [] false))
      (imps ++ [I]) = a ++ [I]).
  { destruct (includes "Contentful." (renderProp field)); simpl.
    - eexists. split; [| apply insertImport_imports; assumption].
      apply forallb_isImport_app; [exact Hi | reflexivity].
    - exists imps. tauto. }
  destruct S1 as [a [Ha ->]].
  assert (S2 : exists b, forallb isImport b = true /\
    onlyIf (includes "EntryLink" (renderProp field))
      (insertImport
         (mkImport "@src/types/contentful/static" None ["EntryLink"] false))
      (a ++ [I]) = b ++ [I]).
  { destruct (includes "EntryLink" (renderProp field)); simpl.
    - eexists. split; [| apply insertImport_imports; assumption].
      apply forallb_isImport_app; [exact Ha | reflexivity].
    - exists a. tauto. }
  destruct S2 as [b [Hb ->]].
  rewrite insertImport_imports by assumption.
  rewrite insertImports_imports;
    [| apply forallb_isImport_app; [exact Hb | reflexivity] | exact HI].
  eexists. split; [| reflexivity].
  repeat apply forallb_isImport_app;
    [exact Hb | reflexivity | apply forallb_isImport_map].
Qed.

Lemma properties_fold (file iface : string) (fs : list Field) :
  forall (imps : list Structure) (props : list PropertySignatureStructure),
    forallb isImport imps = true ->
    exists imps',
      forallb isImport imps' = true /\
      fold_left (fun ss field => propertyEdits file iface field ss) fs
        (imps ++ [Interface (mkInterface iface true props)])
      = imps' ++ [Interface
                    (mkInterface iface true
                       (props ++ map propertySignature fs))].
Proof.
  induction fs as [|f r IH]; intros imps props Hi; simpl.
  - exists imps. rewrite app_nil_r. tauto.
  - destruct (propertyEdits_shape file iface f imps props Hi)
      as [imps1 [H1 ->]].
    destruct (IH imps1 (props ++ [propertySignature f]) H1)
      as [imps2 [H2 ->]].
    exists imps2. rewrite <- app_assoc. tauto.
Qed.

(** The statements [appendType] creates for a descriptor: imports, then the
    fields interface with one property per field, the type-id constant and
    the entry type alias. *)
Lemma entityDraft_shape (model : CFContentType) :
  exists imps,
    forallb isImport imps = true /\
    entityDraft model
    = imps
      ++ [Interface
            (mkInterface (moduleFieldsName (sys_id (sys model))) true
               (map propertySignature (fields model)));
          typeIdStatement (moduleName (sys_id (sys model)))
            (sys_id (sys model));
          entryTypeAlias (moduleName (sys_id (sys model)))
            (sys_id (sys model)) (moduleFieldsName (sys_id (sys model)))].
Proof.
  unfold entityDraft.
  destruct (properties_fold (moduleName (sys_id (sys model)))
              (moduleFieldsName (sys_id (sys model))) (fields model)
              defaultImports [] eq_refl) as [imps [Hi ->]].
  exists imps. split; [exact Hi|]. rewrite <- app_assoc. reflexivity.
Qed.

Lemma entityStatements_declarations (model : CFContentType) :
  filter isDeclaration (entityStatements model)
  = [Interface
       (mkInterface (moduleFieldsName (sys_id (sys model))) true
          (map propertySignature (fields model)));
     typeIdStatement (moduleName (sys_id (sys model))) (sys_id (sys model));
     entryTypeAlias (moduleName (sys_id (sys model))) (sys_id (sys model))
       (moduleFieldsName (sys_id (sys model)))].
Proof.
  unfold entityStatements. rewrite organize_declarations.
  destruct (entityDraft_shape model) as [imps [Hi ->]].
  rewrite filter_isDeclaration_imports by exact Hi. reflexivity.
Qed.

(** After [appendType], the project holds the entity's file. *)
Lemma appendType_file (model : CFContentType) (p : Project) :
  sys_type (sys model) = "ContentType" ->
  getFile (moduleName (sys_id (sys model))) (stateOf (appendType model p))
  = Some (mkSourceFile (moduleName (sys_id (sys model)))
            (entityStatements model)).
Proof.
  intros Hv. rewrite (appendType_run model p Hv). simpl.
  apply getFile_setFile_same.
Qed.

Lemma appendType_other (model : CFContentType) (p : Project) (n : string) :
  sys_type (sys model) = "ContentType" ->
  n <> moduleName (sys_id (sys model)) ->
  getFile n (stateOf (appendType model p)) = getFile n p.
Proof.
  intros Hv Hn. rewrite (appendType_run model p Hv). simpl.
  apply getFile_setFile_other. exact Hn.
Qed.

Lemma appendType_wf (model : CFContentType) (p : Project) :
  wf p -> wf (stateOf (appendType model p)).
Proof.
  intros Hwf.
  destruct (String.eqb (sys_type (sys model)) "ContentType") eqn:E.
  - apply String.eqb_eq in E. rewrite (appendType_run model p E). simpl.
    apply wf_setFile. exact Hwf.
  - unfold appendType. rewrite E. exact Hwf.
Qed.

End Entity.

(** ** Synthesis of one entity: [appendType] *)

Section AppendType.

Context {TS : TsMorph} {CO : Collaborators}.

(** C4.  For a descriptor whose [sys.type] is not ['ContentType'],
    [appendType] throws (the error of the invalid descriptor, an [Error]
    with the message below) and the project is exactly the one before the
    call; hence whatever is appended afterwards behaves as if the failed
    call had not been made. *)
Theorem appendType_invalid_descriptor (model : CFContentType) (p : Project) :
  sys_type (sys model) <> "ContentType" ->
  appendType model p
  = (p, Thrown (Error "given data is not describing a ContentType")) /\
  forall later : CFContentType,
    appendType later (stateOf (appendType model p)) = appendType later p.
Proof.
  intros Hv. apply String.eqb_neq in Hv.
  assert (E : appendType model p
              = (p, Thrown (Error "given data is not describing a ContentType"))).
  { unfold appendType. rewrite Hv. reflexivity. }
  split; [exact E|]. intros later. rewrite E. reflexivity.
Qed.

(** C6.  In the file [appendType] creates for a valid descriptor, the fields
    interface has one property per field, in order, named after the field
    and typed by [renderProp]; the property carries a question token if and
    only if the field is omitted or not required. *)
Theorem property_optional_iff (model : CFContentType) (p : Project) :
  sys_type (sys model) = "ContentType" ->
  exists file iface,
    getFile (moduleName (sys_id (sys model))) (stateOf (appendType model p))
    = Some file /\
    interfacesNamed (moduleFieldsName (sys_id (sys model))) (statements file)
    = [iface] /\
    Forall2
      (fun field pr =>
         prop_name pr = field_id field /\
         prop_type pr = renderProp field /\
         (hasQuestionToken pr = true <->
          field_omitted field = true \/ field_required field = false))
      (fields model) (properties iface).
Proof.
  intros Hv.
  exists (mkSourceFile (moduleName (sys_id (sys model)))
            (entityStatements model)).
  exists (mkInterface (moduleFieldsName (sys_id (sys model))) true
            (map propertySignature (fields model))).
  split; [apply appendType_file; exact Hv|]. split.
  - simpl. rewrite <- interfacesNamed_filter, entityStatements_declarations.
    simpl. rewrite String.eqb_refl. reflexivity.
  - simpl. induction (fields model) as [|f r IH]; simpl; constructor.
    + simpl. split; [reflexivity|]. split; [reflexivity|].
      rewrite orb_true_iff, negb_true_iff. tauto.
    + exact IH.
Qed.

(** C7.  Appending a valid descriptor a second time leaves the project as
    the first call left it: same files, same order, same statements; so the
    text of the entity's module is the same after two calls as after one. *)
Theorem appendType_idempotent (model : CFContentType) (p : Project) :
  sys_type (sys model) = "ContentType" ->
  let once := stateOf (appendType model p) in
  let twice := stateOf (appendType model once) in
  twice = once /\
  completionOf (appendType model once) = Normal tt /\
  getFullText (moduleName (sys_id (sys model))) twice
  = getFullText (moduleName (sys_id (sys model))) once /\
  completionOf (getFullText (moduleName (sys_id (sys model))) once)
  = Normal (print (entityStatements model)).
Proof.
  intros Hv once twice.
  assert (E : twice = once).
  { unfold twice, once. rewrite !(appendType_run model _ Hv). simpl.
    apply setFile_setFile. }
  split; [exact E|]. split.
  - rewrite (appendType_run model once Hv). reflexivity.
  - split; [rewrite E; reflexivity|].
    unfold getFullText, once. rewrite (appendType_file model p Hv).
    reflexivity.
Qed.

(** C9.  With a naming that is free of collisions on the expected
    identifiers (section 4.1), for every project and every two valid
    descriptors with distinct expected identifiers, the module produced for
    the first is the same whether the other is not appended, appended after
    it, or appended before it; and [appendType] leaves every module but its
    own as it was. *)
Theorem appendType_independent (expected : string -> Prop)
    (a b : CFContentType) (p : Project) :
  (forall x y, expected x -> expected y ->
               moduleName x = moduleName y -> x = y) ->
  expected (sys_id (sys a)) -> expected (sys_id (sys b)) ->
  sys_type (sys a) = "ContentType" ->
  sys_type (sys b) = "ContentType" ->
  sys_id (sys a) <> sys_id (sys b) ->
  let produced q := getFile (moduleName (sys_id (sys a))) q in
  produced (stateOf (appendType a p))
  = Some (mkSourceFile (moduleName (sys_id (sys a))) (entityStatements a)) /\
  produced (stateOf (appendType b (stateOf (appendType a p))))
  = produced (stateOf (appendType a p)) /\
  produced (stateOf (appendType a (stateOf (appendType b p))))
  = produced (stateOf (appendType a p)) /\
  forall n, n <> moduleName (sys_id (sys a)) ->
            getFile n (stateOf (appendType a p)) = getFile n p.
Proof.
  intros Hinj Ea Eb Ha Hb Hid produced. unfold produced.
  assert (Hn : moduleName (sys_id (sys a)) <> moduleName (sys_id (sys b)))
    by (intros E; apply Hid; apply Hinj; assumption).
  split; [apply appendType_file; exact Ha|]. split.
  - apply appendType_other; assumption.
  - split.
    + rewrite !appendType_file by exact Ha. reflexivity.
    + intros n H. apply appendType_other; assumption.
Qed.

End AppendType.

(** ** The index module: [addIndexFile] *)

Lemma wf_cons (f : SourceFile) (p : Project) :
  wf (f :: p) <-> ~ In (baseName f) (fileNames p) /\ wf p.
Proof.
  unfold wf. simpl. split.
  - intros H. inversion H; subst. tauto.
  - intros [H1 H2]. constructor; assumption.
Qed.

Lemma filter_absent (n : string) (p : Project) :
  ~ In n (fileNames p) -> filter (fun f => negb (hasName n f)) p = p.
Proof.
  induction p as [|f r IH]; simpl; [reflexivity|].
  intros H. destruct (hasName n f) eqn:E; simpl.
  - apply hasName_true in E. tauto.
  - rewrite IH by tauto. reflexivity.
Qed.

Lemma removeFile_filter (n : string) (p : Project) :
  wf p -> removeFile n p = filter (fun f => negb (hasName n f)) p.
Proof.
  induction p as [|f r IH]; simpl; [reflexivity|].
  intros H. apply wf_cons in H. destruct H as [Hf Hr].
  destruct (hasName n f) eqn:E; simpl.
  - apply hasName_true in E. rewrite filter_absent; congruence.
  - rewrite (IH Hr). reflexivity.
Qed.

Lemma wf_filter (test : SourceFile -> bool) (p : Project) :
  wf p -> wf (filter test p).
Proof.
  induction p as [|f r IH]; simpl; [tauto|].
  intros H. apply wf_cons in H. destruct H as [Hf Hr].
  destruct (test f); [| exact (IH Hr)].
  apply wf_cons. split; [| exact (IH Hr)].
  intros Hin. apply Hf. unfold fileNames in *.
  apply in_map_iff in Hin. destruct Hin as [x [Hx Hin]].
  apply filter_In in Hin. apply in_map_iff. exists x. tauto.
Qed.

Lemma wf_removeFile (n : string) (p : Project) : wf p -> wf (removeFile n p).
Proof.
  intros H. rewrite (removeFile_filter n H). apply wf_filter. exact H.
Qed.

Lemma removeFile_not_In (n : string) (p : Project) :
  wf p -> ~ In n (fileNames (removeFile n p)).
Proof.
  intros H. rewrite (removeFile_filter n H). unfold fileNames.
  rewrite in_map_iff. intros [f [Hn Hin]]. apply filter_In in Hin.
  destruct Hin as [_ Hin]. apply negb_true_iff, hasName_false in Hin.
  tauto.
Qed.

Lemma filter_removeFile (test : SourceFile -> bool) (n : string)
    (p : Project) :
  (forall f, hasName n f = true -> test f = true) ->
  filter test (removeFile n p) = removeFile n (filter test p).
Proof.
  intros Ht. induction p as [|f r IH]; simpl; [reflexivity|].
  destruct (hasName n f) eqn:E.
  - rewrite (Ht f E). simpl. rewrite E. reflexivity.
  - simpl. destruct (test f); simpl; [rewrite E, IH|]; auto.
Qed.

Lemma filter_modifyFile (n : string) g (p : Project) :
  filter (fun f => negb (hasName n f)) (modifyFile n g p)
  = filter (fun f => negb (hasName n f)) p.
Proof.
  induction p as [|f r IH]; simpl; [reflexivity|].
  destruct (hasName n f) eqn:E; simpl.
  - unfold hasName in *. simpl. rewrite E. simpl. exact IH.
  - rewrite E. simpl. rewrite IH. reflexivity.
Qed.

Lemma filter_insertAt (test : SourceFile -> bool) (k : nat) (f : SourceFile)
    (p : Project) :
  test f = false -> filter test (insertAt k f p) = filter test p.
Proof.
  intros H. unfold insertAt. rewrite filter_app. simpl. rewrite H.
  rewrite <- filter_app, firstn_skipn. reflexivity.
Qed.

Lemma forallb_insert {A} (test : A -> bool) (k : nat) (new l : list A) :
  forallb test new = true -> forallb test l = true ->
  forallb test (firstn k l ++ new ++ skipn k l) = true.
Proof.
  intros Hn Hl. rewrite <- (firstn_skipn k l), forallb_app in Hl.
  apply andb_prop in Hl. destruct Hl as [H1 H2].
  rewrite !forallb_app, H1, Hn, H2. reflexivity.
Qed.

Lemma fold_left_snoc {A B} (f : A -> B) (xs : list A) (acc : list B) :
  fold_left (fun acc x => acc ++ [f x]) xs acc = acc ++ map f xs.
Proof.
  revert acc. induction xs as [|x r IH]; intros acc; simpl.
  - rewrite app_nil_r. reflexivity.
  - rewrite IH, <- app_assoc. reflexivity.
Qed.

Section Index.

Context {TS : TsMorph} {CO : Collaborators}.

Lemma entityFiles_setFile_index (ss : list Structure) (p : Project) :
  entityFiles (setFile "index" ss p) = entityFiles p.
Proof.
  unfold entityFiles, setFile.
  destruct (existsb (hasName "index") p).
  - apply filter_modifyFile.
  - apply filter_insertAt. reflexivity.
Qed.

Lemma withoutIndex_entityFiles (p : Project) :
  wf p -> withoutIndex p = entityFiles p.
Proof.
  intros Hwf. unfold withoutIndex, entityFiles.
  destruct (find (fun file => String.eqb file "index") (fileNames p))
    as [f|] eqn:E.
  - apply find_some in E. destruct E as [_ E]. apply String.eqb_eq in E.
    subst f. apply removeFile_filter. exact Hwf.
  - symmetry. apply filter_absent. intros Hin.
    pose proof (find_none _ _ E _ Hin) as H. simpl in H.
    discriminate.
Qed.

Lemma entityFiles_idempotent (p : Project) :
  entityFiles (entityFiles p) = entityFiles p.
Proof.
  unfold entityFiles. induction p as [|f r IH]; simpl; [reflexivity|].
  destruct (hasName "index" f) eqn:E; simpl; [exact IH|].
  rewrite E. simpl. rewrite IH. reflexivity.
Qed.

Lemma addIndexFile_run (p : Project) :
  addIndexFile p
  = (setFile "index" (indexStatements (fileNames (withoutIndex p)))
       (withoutIndex p),
     Normal tt).
Proof.
  unfold addIndexFile.
  unfold bind at 1. unfold getSourceFile.
  unfold bind at 1.
  assert (E : (match find
                       (fun file =>
                          String.eqb (getBaseNameWithoutExtension file)
                            "index") (fileNames p)
               with
               | Some f => removeSourceFile f
               | None => ret tt
               end) p = (withoutIndex p, Normal tt)).
  { unfold withoutIndex, getBaseNameWithoutExtension, SourceFileRef.
    destruct (find (fun file => String.eqb file "index") (fileNames p));
      reflexivity. }
  rewrite E. clear E.
  unfold bind at 1. unfold getSourceFiles.
  unfold bind at 1. unfold addFile. rewrite createSourceFile_run.
  unfold getBaseNameWithoutExtension. rewrite map_id.
  set (files := fileNames (withoutIndex p)).
  assert (L : Edits
    (forEachAcc files
       (fun cmsEntries fileName =>
          addImportDeclaration "index"
            (mkImport ("./" ++ fileName) None
               [moduleName fileName; moduleFieldsName fileName] true) ;;
          addExportDeclaration "index"
            (mkExport [moduleName fileName; moduleFieldsName fileName]
               None true) ;;
          addExportDeclaration "index"
            (mkExport [moduleTypeIdName fileName]
               (Some ("./" ++ fileName)%string) false) ;;
          ret (cmsEntries ++ [moduleName fileName]))
       [])
    "index"
    (fun ss => fold_left (fun ss x => indexEntryEdits x ss) files ss)
    (fold_left (fun acc x => acc ++ [moduleName x]) files [])).
  { apply Edits_forEachAcc
      with (h := fun (acc : list string) x => acc ++ [moduleName x]).
    intros acc x.
    unfold addImportDeclaration, addExportDeclaration, indexEntryEdits.
    eapply Edits_ext;
      [| repeat (eapply Edits_bind || apply Edits_updateFile
                 || apply Edits_ret) ].
    intros ss. unfold appendStatement. rewrite <- app_assoc. reflexivity. }
  rewrite (fold_left_snoc moduleName files []) in L. simpl in L.
  unfold addImportDeclaration at 1, addTypeAlias, organizeImports.
  match goal with
  | |- ?m _ = _ =>
      assert (E : Edits m "index"
                    (fun ss =>
                       organize (mkSettings false)
                         ((fold_left (fun ss x => indexEntryEdits x ss) files
                             (insertImport
                                (mkImport "@src/types/contentful/static" None
                                   ["CMSManagementEntry"] false) ss)
                           ++ [cmsEntriesAlias (map moduleName files)])
                          ++ [cmsManagementEntriesAlias
                                (map moduleName files)]))
                    tt)
  end.
  { eapply Edits_ext;
      [| eapply Edits_bind; [apply Edits_updateFile|];
         eapply Edits_bind; [exact L|];
         repeat (eapply Edits_bind || apply Edits_updateFile) ].
    intros ss. reflexivity. }
  rewrite E. unfold indexStatements, indexDraft.
  rewrite <- app_assoc. reflexivity.
Qed.

Lemma indexEntryEdits_kinds (files : list string) (ss : list Structure) :
  forallb (fun s => isImport s || isExport s) ss = true ->
  forallb (fun s => isImport s || isExport s)
    (fold_left (fun ss x => indexEntryEdits x ss) files ss) = true.
Proof.
  revert ss. induction files as [|x r IH]; intros ss H; simpl; [exact H|].
  apply IH. unfold indexEntryEdits, insertImport, insertImports.
  rewrite forallb_app. apply andb_true_intro. split; [| reflexivity].
  apply forallb_insert; [reflexivity | exact H].
Qed.

Lemma filter_isDeclaration_none (ss : list Structure) :
  forallb (fun s => isImport s || isExport s) ss = true ->
  filter isDeclaration ss = [].
Proof.
  induction ss as [|s r IH]; simpl; [reflexivity|].
  intros H. apply andb_prop in H. destruct H as [Hs Hr].
  unfold isDeclaration at 1. rewrite Hs. simpl. exact (IH Hr).
Qed.

Lemma indexStatements_declarations (files : list string) :
  filter isDeclaration (indexStatements files)
  = [cmsEntriesAlias (map moduleName files);
     cmsManagementEntriesAlias (map moduleName files)].
Proof.
  unfold indexStatements. rewrite organize_declarations.
  unfold indexDraft. rewrite filter_app.
  rewrite filter_isDeclaration_none
    by (apply indexEntryEdits_kinds; reflexivity).
  reflexivity.
Qed.

(** What a rebuild of the index leaves, for a project without clashing
    files. *)
Lemma addIndexFile_rebuilt (p : Project) :
  wf p ->
  addIndexFile p
  = (setFile "index" (indexStatements (fileNames (entityFiles p)))
       (entityFiles p),
     Normal tt) /\
  wf (stateOf (addIndexFile p)) /\
  entityFiles (stateOf (addIndexFile p)) = entityFiles p /\
  getFile "index" (stateOf (addIndexFile p))
  = Some (mkSourceFile "index" (indexStatements (fileNames (entityFiles p))))
  /\
  aliasTypes "CMSEntries" (indexStatements (fileNames (entityFiles p)))
  = [renderUnionType (map moduleName (fileNames (entityFiles p)))].
Proof.
  intros Hwf. rewrite addIndexFile_run, (withoutIndex_entityFiles Hwf).
  simpl. split; [reflexivity|]. split.
  - apply wf_setFile. apply wf_filter. exact Hwf.
  - split.
    + rewrite entityFiles_setFile_index. apply entityFiles_idempotent.
    + split; [apply getFile_setFile_same|].
      rewrite <- aliasTypes_filter, indexStatements_declarations.
      reflexivity.
Qed.

(** C1, as the code has it.  After [addIndexFile] on a project, the modules
    other than the index are the ones there were, in the same enumeration
    order; the index module has exactly one type alias [CMSEntries], the
    union (as [renderUnionType] renders it) of [moduleName] of each of these
    modules, one member per module, in the order [getSourceFiles]
    enumerates them, whatever that order is (it need not be the order of
    insertion).  When a module is then removed and the index rebuilt, the
    union is the same list without that module's member, and the module is
    no longer among those listed. *)
Theorem index_completeness (p : Project) :
  wf p ->
  let rebuilt := stateOf (addIndexFile p) in
  let members q := map moduleName (fileNames (entityFiles q)) in
  completionOf (addIndexFile p) = Normal tt /\
  entityFiles rebuilt = entityFiles p /\
  (exists index,
     getFile "index" rebuilt = Some index /\
     aliasTypes "CMSEntries" (statements index)
     = [renderUnionType (members p)]) /\
  forall n, n <> "index" ->
    let again := stateOf (addIndexFile (removeFile n rebuilt)) in
    entityFiles again = removeFile n (entityFiles p) /\
    ~ In n (fileNames (entityFiles again)) /\
    exists index,
      getFile "index" again = Some index /\
      aliasTypes "CMSEntries" (statements index)
      = [renderUnionType
           (map moduleName (fileNames (removeFile n (entityFiles p))))].
Proof.
  intros Hwf rebuilt members.
  destruct (addIndexFile_rebuilt Hwf) as [Hrun [Hwf' [He [Hi Ha]]]].
  fold rebuilt in Hwf', He, Hi.
  split; [rewrite Hrun; reflexivity|].
  split; [exact He|].
  split; [eexists; split; [exact Hi | exact Ha]|].
  intros n Hn again.
  assert (Hq : wf (removeFile n rebuilt)) by (apply wf_removeFile; exact Hwf').
  destruct (addIndexFile_rebuilt Hq) as [_ [_ [He' [Hi' Ha']]]].
  fold again in He', Hi'.
  assert (E : entityFiles (removeFile n rebuilt)
              = removeFile n (entityFiles p)).
  { unfold entityFiles at 1. rewrite filter_removeFile.
    - fold (entityFiles rebuilt). rewrite He. reflexivity.
    - intros f Hf. apply hasName_true in Hf. apply negb_true_iff.
      apply hasName_false. congruence. }
  rewrite E in He', Hi', Ha'.
  split; [exact He'|]. split.
  - rewrite He'. apply removeFile_not_In. apply wf_filter. exact Hwf.
  - eexists. split; [exact Hi' | exact Ha'].
Qed.

End Index.

(** ** The merged module: [mergeFile] *)

Lemma visited_supported (cs : list Structure) :
  forallb supported cs = true -> visited cs = cs.
Proof.
  induction cs as [|c r IH]; simpl; [reflexivity|].
  intros H. apply andb_prop in H. destruct H as [Hc Hr].
  rewrite Hc, (IH Hr). reflexivity.
Qed.

Lemma find_unsupported_none (cs : list Structure) :
  find (fun s => negb (supported s)) cs = None <-> forallb supported cs = true.
Proof.
  induction cs as [|c r IH]; simpl; [tauto|].
  destruct (supported c); simpl; [exact IH|].
  split; discriminate.
Qed.

Lemma visited_app_none (a b : list Structure) :
  find (fun s => negb (supported s)) a = None ->
  visited (a ++ b) = a ++ visited b /\
  find (fun s => negb (supported s)) (a ++ b)
  = find (fun s => negb (supported s)) b.
Proof.
  induction a as [|c r IH]; simpl; [tauto|].
  destruct (supported c); simpl; [| discriminate].
  intros H. destruct (IH H) as [-> ->]. tauto.
Qed.

Lemma visited_app_some (a b : list Structure) (s : Structure) :
  find (fun s => negb (supported s)) a = Some s ->
  visited (a ++ b) = visited a /\
  find (fun s => negb (supported s)) (a ++ b) = Some s.
Proof.
  induction a as [|c r IH]; simpl; [discriminate|].
  destruct (supported c); simpl; [| tauto].
  intros H. destruct (IH H) as [-> ->]. tauto.
Qed.

Lemma mergedDraft_shape (types : list string)
    (imports : list ImportDeclarationStructure) :
  forall imps decls : list Structure,
    forallb isImport imps = true ->
    forallb (fun s => negb (isImport s)) decls = true ->
    fold_left
      (fun ss importD =>
         onlyIf (keepImport types importD) (insertImport importD) ss)
      imports (imps ++ decls)
    = (imps ++ map ImportDeclaration (filter (keepImport types) imports))
      ++ decls.
Proof.
  induction imports as [|i r IH]; intros imps decls Hi Hd; simpl.
  - rewrite app_nil_r. reflexivity.
  - destruct (keepImport types i); simpl.
    + rewrite insertImport_imports by assumption.
      rewrite IH; [| apply forallb_isImport_app; [exact Hi | reflexivity]
                   | exact Hd].
      rewrite <- (app_assoc imps). reflexivity.
    + apply IH; assumption.
Qed.

Lemma filter_isMerged_not_import (cs : list Structure) :
  forallb (fun s => negb (isImport s)) (filter isMerged cs) = true.
Proof.
  induction cs as [|c r IH]; simpl; [reflexivity|].
  destruct c; simpl; auto.
Qed.

(** The merged file before [organizeImports]: the kept imports, then the
    interfaces and type aliases of the source modules. *)
Lemma mergedDraft_eq (cs : list Structure) :
  mergedDraft cs
  = map ImportDeclaration
      (filter (keepImport (declaredNames cs)) (importsOf cs))
    ++ filter isMerged cs.
Proof.
  unfold mergedDraft.
  apply (mergedDraft_shape (declaredNames cs) (importsOf cs) []
           (filter isMerged cs) eq_refl (filter_isMerged_not_import cs)).
Qed.

Lemma In_fileNames_getFile (n : string) (p : Project) :
  In n (fileNames p) -> exists f, getFile n p = Some f.
Proof.
  intros H. apply existsb_hasName in H. unfold getFile.
  destruct (find (hasName n) p) as [f|] eqn:E; [eauto|].
  apply existsb_exists in H. destruct H as [f [Hf Hn]].
  rewrite (find_none _ _ E _ Hf) in Hn. discriminate.
Qed.

Section Merge.

Context {TS : TsMorph} {CO : Collaborators}.

Lemma mergeSources_setFile (m : string) (ss : list Structure) (p : Project) :
  filter (fun sourceFile => negb (String.eqb sourceFile m))
    (fileNames (setFile m ss p))
  = mergeSources m p.
Proof.
  unfold mergeSources, setFile. destruct (existsb (hasName m) p).
  - rewrite fileNames_modifyFile. reflexivity.
  - unfold insertAt, fileNames. rewrite map_app, filter_app. simpl.
    rewrite String.eqb_refl. simpl.
    rewrite <- filter_app, <- map_app, firstn_skipn. reflexivity.
Qed.

(** The inner loop of [mergeFile], over the children of one module. *)
Lemma mergeChild_walk (m : string) (p : Project) (cs : list Structure) :
  forall (decls : list Structure)
         (imports : list ImportDeclarationStructure) (types : list string),
    forEachAcc cs (mergeChild m) (imports, types) (setFile m decls p)
    = (setFile m (decls ++ filter isMerged (visited cs)) p,
       match find (fun s => negb (supported s)) cs with
       | None => Normal (imports ++ importsOf cs, types ++ declaredNames cs)
       | Some s => Thrown (unhandled s)
       end).
Proof.
  induction cs as [|c r IH]; intros decls imports types; simpl.
  - rewrite !app_nil_r. reflexivity.
  - destruct c; simpl; unfold bind; simpl.
    + rewrite IH, <- app_assoc. reflexivity.
    + rewrite app_nil_r. reflexivity.
    + unfold updateFile. rewrite modifyFile_setFile. unfold appendStatement.
      rewrite IH, <- !app_assoc. reflexivity.
    + unfold addTypeAlias, updateFile. rewrite modifyFile_setFile.
      unfold appendStatement. rewrite IH, <- !app_assoc. reflexivity.
    + rewrite app_nil_r. reflexivity.
Qed.

(** The outer loop, over the source modules. *)
Lemma mergeFiles_walk (m : string) (p : Project) (refs : list SourceFileRef) :
  (forall r, In r refs -> r <> m /\ In r (fileNames p)) ->
  forall (decls : list Structure)
         (imports : list ImportDeclarationStructure) (types : list string),
    forEachAcc refs
      (fun acc sourceFile =>
         structure <- getStructure sourceFile ;;
         forEachAcc structure (mergeChild m) acc)
      (imports, types) (setFile m decls p)
    = (setFile m
         (decls ++ filter isMerged (visited (flat_map (statementsOf p) refs)))
         p,
       match find (fun s => negb (supported s))
               (flat_map (statementsOf p) refs) with
       | None =>
           Normal (imports ++ importsOf (flat_map (statementsOf p) refs),
                   types ++ declaredNames (flat_map (statementsOf p) refs))
       | Some s => Thrown (unhandled s)
       end).
Proof.
  induction refs as [|r rs IH]; intros Hrefs decls imports types; simpl.
  - rewrite !app_nil_r. reflexivity.
  - destruct (Hrefs r (or_introl eq_refl)) as [Hm Hin].
    destruct (In_fileNames_getFile _ _ Hin) as [f Hf].
    unfold bind at 1. unfold bind at 1. unfold getStructure.
    rewrite getFile_setFile_other by exact Hm. rewrite Hf.
    rewrite mergeChild_walk.
    assert (S : statementsOf p r = statements f)
      by (unfold statementsOf; rewrite Hf; reflexivity).
    rewrite S.
    destruct (find (fun s => negb (supported s)) (statements f)) as [s|] eqn:E.
    + destruct (visited_app_some _ (flat_map (statementsOf p) rs) E)
        as [-> ->].
      reflexivity.
    + destruct (visited_app_none _ (flat_map (statementsOf p) rs) E)
        as [-> ->].
      rewrite IH by (intros x Hx; apply Hrefs; right; exact Hx).
      apply find_unsupported_none in E.
      rewrite (visited_supported _ E), filter_app, importsOf_app,
        declaredNames_app, <- !app_assoc.
      reflexivity.
Qed.

(** [mergeFile], in one step: it throws at the first child that is not an
    import, an interface or a type alias, leaving in the project the merged
    file as far as it got; otherwise it returns the merged file. *)
Lemma mergeFile_run (m : string) (p : Project) :
  mergeFile m p
  = match find (fun s => negb (supported s)) (mergeChildren m p) with
    | None =>
        (setFile m
           (organize (mkSettings true) (mergedDraft (mergeChildren m p))) p,
         Normal m)
    | Some s =>
        (setFile m (filter isMerged (visited (mergeChildren m p))) p,
         Thrown (unhandled s))
    end.
Proof.
  unfold mergeFile.
  unfold bind at 1. unfold addFile. rewrite createSourceFile_run.
  unfold bind at 1. unfold getSourceFiles.
  unfold getBaseNameWithoutExtension. rewrite mergeSources_setFile.
  unfold bind at 1. rewrite mergeFiles_walk.
  - fold (mergeChildren m p). simpl.
    destruct (find (fun s => negb (supported s)) (mergeChildren m p))
      as [s|] eqn:E; [reflexivity|].
    apply find_unsupported_none in E. rewrite (visited_supported _ E).
    match goal with
    | |- ?body _ = _ =>
        assert (H : Edits body m
                  (fun ss =>
                     organize (mkSettings true)
                       (fold_left
                          (fun ss importD =>
                             onlyIf
                               (keepImport
                                  (declaredNames (mergeChildren m p))
                                  importD)
                               (insertImport importD) ss)
                          (importsOf (mergeChildren m p)) ss))
                  m)
    end.
    { unfold organizeImports, addImportDeclaration.
      eapply Edits_ext;
        [| eapply Edits_bind;
           [ apply Edits_forEach
               with (g := fun importD =>
                            onlyIf
                              (keepImport (declaredNames (mergeChildren m p))
                                 importD)
                              (insertImport importD));
             intros importD; apply Edits_when; apply Edits_updateFile
           | eapply Edits_bind; [apply Edits_updateFile | apply Edits_ret] ] ].
      intros ss. reflexivity. }
    rewrite H. reflexivity.
  - intros r Hr. unfold mergeSources in Hr. apply filter_In in Hr.
    destruct Hr as [Hin Hneq]. apply negb_true_iff, String.eqb_neq in Hneq.
    tauto.
Qed.

Lemma In_mergeChildren (m : string) (p : Project) (f : SourceFile)
    (s : Structure) :
  wf p -> In f p -> baseName f <> m -> In s (statements f) ->
  In s (mergeChildren m p).
Proof.
  intros Hwf Hf Hm Hs. unfold mergeChildren. apply in_flat_map.
  exists (baseName f). split.
  - unfold mergeSources. apply filter_In. split.
    + unfold fileNames. apply in_map. exact Hf.
    + apply negb_true_iff, String.eqb_neq. exact Hm.
  - unfold statementsOf. rewrite getFile_In by assumption. exact Hs.
Qed.

Lemma mergeChildren_In (m : string) (p : Project) (s : Structure) :
  In s (mergeChildren m p) ->
  exists f, In f p /\ baseName f <> m /\ In s (statements f).
Proof.
  unfold mergeChildren. intros H. apply in_flat_map in H.
  destruct H as [r [Hr Hs]]. unfold mergeSources in Hr.
  apply filter_In in Hr. destruct Hr as [_ Hneq].
  apply negb_true_iff, String.eqb_neq in Hneq.
  unfold statementsOf in Hs.
  destruct (getFile r p) as [f|] eqn:E; [| contradiction].
  apply getFile_Some_name in E. destruct E as [En Ein].
  exists f. rewrite En. tauto.
Qed.

(** A child the [switch] does not handle makes [mergeFile] throw. *)
Lemma mergeFile_throws (m : string) (p : Project) (s : Structure) :
  In s (mergeChildren m p) -> supported s = false ->
  exists c,
    In c (mergeChildren m p) /\ supported c = false /\
    mergeFile m p
    = (setFile m (filter isMerged (visited (mergeChildren m p))) p,
       Thrown (unhandled c)).
Proof.
  intros Hin Hs. rewrite mergeFile_run.
  destruct (find (fun s => negb (supported s)) (mergeChildren m p))
    as [c|] eqn:E.
  - apply find_some in E. destruct E as [Hc Hn].
    apply negb_true_iff in Hn. exists c. tauto.
  - pose proof (find_none _ _ E _ Hin) as Hn. simpl in Hn.
    rewrite Hs in Hn. discriminate.
Qed.

End Merge.

Section MergeClaims.

Context {TS : TsMorph} {CO : Collaborators}.

(** C8.  When a top-level structure of a source module (a module of the
    project other than the merged one) is neither an import declaration, nor
    an interface, nor a type alias, [mergeFile] throws: it returns no merged
    module, partial or not, and so does [toString].  The error names the
    kind of the first such structure in walk order. *)
Theorem merge_unsupported_kind_is_fatal (m : string) (p : Project)
    (f : SourceFile) (s : Structure) :
  wf p -> In f p -> baseName f <> m -> In s (statements f) ->
  kind s <> KImportDeclaration -> kind s <> KInterface ->
  kind s <> KTypeAlias ->
  exists c,
    In c (mergeChildren m p) /\
    kind c <> KImportDeclaration /\ kind c <> KInterface /\
    kind c <> KTypeAlias /\
    completionOf (mergeFile m p)
    = Thrown (Error ("Unhandled node type '" ++ kindName (kind c) ++ "'.")) /\
    (m = "ContentTypes" ->
     completionOf (toString p)
     = Thrown (Error ("Unhandled node type '" ++ kindName (kind c) ++ "'."))).
Proof.
  intros Hwf Hf Hm Hs K1 K2 K3.
  assert (Hu : supported s = false)
    by (destruct s; simpl in *; congruence).
  assert (Hin : In s (mergeChildren m p))
    by (apply In_mergeChildren with (f := f); assumption).
  destruct (mergeFile_throws m p s Hin Hu) as [c [Hc [Hcu Hrun]]].
  exists c. split; [exact Hc|].
  repeat split; try (destruct c; simpl in *; congruence).
  - rewrite Hrun. reflexivity.
  - intros ->. unfold toString, bind. rewrite Hrun. reflexivity.
Qed.

(** The second loop of [mergeFile], when it is reached.  When every child
    of the source modules is an
    import, an interface or a type alias, [mergeFile] returns the merged
    module, and for source modules [A] and [B]: if [A] carries an import
    whose specifier without its first two characters is the name of an
    interface or type alias of [B], the returned module has no import with
    that specifier; every import of a source module whose specifier without
    its first two characters is no such name is added to the merged module
    (before [organizeImports] runs on it). *)
Lemma merge_self_import_elimination (m : string) (p : Project) :
  wf p ->
  forallb supported (mergeChildren m p) = true ->
  exists draft,
    mergeFile m p = (setFile m (organize (mkSettings true) draft) p, Normal m)
    /\
    getFile m (stateOf (mergeFile m p))
    = Some (mkSourceFile m (organize (mkSettings true) draft)) /\
    (forall A B i name,
       In A p -> baseName A <> m -> In B p -> baseName B <> m ->
       In (ImportDeclaration i) (statements A) ->
       slice 2 (moduleSpecifier i) = name ->
       In name (declaredNames (statements B)) ->
       forall j, In (ImportDeclaration j) (organize (mkSettings true) draft) ->
                 moduleSpecifier j <> moduleSpecifier i) /\
    (forall A i,
       In A p -> baseName A <> m ->
       In (ImportDeclaration i) (statements A) ->
       (forall B, In B p -> baseName B <> m ->
                  ~ In (slice 2 (moduleSpecifier i))
                      (declaredNames (statements B))) ->
       In (ImportDeclaration i) draft).
Proof.
  intros Hwf Hs. exists (mergedDraft (mergeChildren m p)).
  assert (Hrun : mergeFile m p
                 = (setFile m
                      (organize (mkSettings true)
                         (mergedDraft (mergeChildren m p))) p,
                    Normal m)).
  { rewrite mergeFile_run.
    apply find_unsupported_none in Hs. rewrite Hs. reflexivity. }
  assert (Hnames : forall B, In B p -> baseName B <> m ->
            forall name, In name (declaredNames (statements B)) ->
                         In name (declaredNames (mergeChildren m p))).
  { intros B HB HBm name Hname. unfold mergeChildren.
    assert (Hr : In (baseName B) (mergeSources m p)).
    { unfold mergeSources. apply filter_In. split.
      - unfold fileNames. apply in_map. exact HB.
      - apply negb_true_iff, String.eqb_neq. exact HBm. }
    apply in_split in Hr. destruct Hr as [l1 [l2 ->]].
    rewrite flat_map_app. simpl. rewrite !declaredNames_app.
    apply in_or_app. right. apply in_or_app. left.
    unfold statementsOf. rewrite getFile_In by assumption. exact Hname. }
  split; [exact Hrun|]. split.
  - rewrite Hrun. simpl. apply getFile_setFile_same.
  - split.
    + intros A B i name HA HAm HB HBm Hi Hslice Hname j Hj Heq.
      apply organize_specifiers in Hj. destruct Hj as [k [Hk Hkj]].
      rewrite mergedDraft_eq in Hk. apply in_app_or in Hk.
      destruct Hk as [Hk|Hk].
      * apply in_map_iff in Hk. destruct Hk as [k' [Ek Hk]].
        injection Ek as ->. apply filter_In in Hk. destruct Hk as [_ Hk].
        unfold keepImport, arrayIncludes in Hk.
        apply negb_true_iff in Hk.
        assert (Hin : In name (declaredNames (mergeChildren m p)))
          by (apply (Hnames B); assumption).
        assert (Ht : existsb
                       (String.eqb (slice 2 (moduleSpecifier k)))
                       (declaredNames (mergeChildren m p)) = true).
        { apply existsb_exists. exists name. split; [exact Hin|].
          apply String.eqb_eq. congruence. }
        congruence.
      * apply filter_In in Hk. destruct Hk as [_ Hk]. discriminate.
    + intros A i HA HAm Hi Hnone.
      rewrite mergedDraft_eq. apply in_or_app. left. apply in_map.
      apply filter_In. split.
      * apply In_importsOf.
        apply In_mergeChildren with (f := A); assumption.
      * unfold keepImport, arrayIncludes. apply negb_true_iff.
        destruct (existsb (String.eqb (slice 2 (moduleSpecifier i)))
                    (declaredNames (mergeChildren m p))) eqn:E;
          [| reflexivity].
        exfalso. apply existsb_exists in E. destruct E as [x [Hx Ex]].
        apply String.eqb_eq in Ex. subst x.
        clear - Hx Hnone.
        unfold mergeChildren in Hx.
        assert (Hd : forall refs,
                  In (slice 2 (moduleSpecifier i))
                    (declaredNames (flat_map (statementsOf p) refs)) ->
                  exists r, In r refs /\
                    In (slice 2 (moduleSpecifier i))
                      (declaredNames (statementsOf p r))).
        { induction refs as [|r rs IH]; simpl; [tauto|].
          rewrite declaredNames_app. intros H. apply in_app_or in H.
          destruct H as [H|H]; [exists r; tauto|].
          destruct (IH H) as [r' [Hr' Hn']]. exists r'. tauto. }
        destruct (Hd _ Hx) as [r [Hr Hn]].
        unfold mergeSources in Hr. apply filter_In in Hr.
        destruct Hr as [_ Hneq].
        apply negb_true_iff, String.eqb_neq in Hneq.
        unfold statementsOf in Hn.
        destruct (getFile r p) as [B|] eqn:EB; [| contradiction].
        apply getFile_Some_name in EB. destruct EB as [En Ein].
        apply (Hnone B Ein); [congruence | exact Hn].
Qed.

End MergeClaims.

(** ** The writer: [write], and [toString] before it *)

(** The builder after appending the descriptors [ds] in order. *)
Definition appendAll {TS : TsMorph} {CO : Collaborators}
    (ds : list CFContentType) (p : Project) : Project :=
  fold_left (fun q d => stateOf (appendType d q)) ds p.

Lemma fileNames_entityFiles (n : string) (p : Project) :
  In n (fileNames (entityFiles p)) <-> n <> "index" /\ In n (fileNames p).
Proof.
  unfold fileNames, entityFiles. rewrite !in_map_iff. split.
  - intros [f [Hn Hf]]. apply filter_In in Hf. destruct Hf as [Hf H].
    apply negb_true_iff, hasName_false in H. split; [congruence|].
    exists f. tauto.
  - intros [Hn [f [Hf Hin]]]. exists f. split; [exact Hf|].
    apply filter_In. split; [exact Hin|].
    apply negb_true_iff, hasName_false. congruence.
Qed.

Section Writer.

Context {TS : TsMorph} {CO : Collaborators}.

Lemma write_loop (dir : string) (q : Project) (refs : list SourceFileRef) :
  (forall r, In r refs -> In r (fileNames q)) ->
  forall acc,
    forEachAcc refs
      (fun writes file =>
         text <- getFullText file ;;
         ret (writes ++ [mkWrite dir (slice 1 (filePath file)) text]))
      acc q
    = (q, Normal
            (acc ++ map (fun r =>
                           mkWrite dir (r ++ ".ts")
                             (print (statementsOf q r))) refs)).
Proof.
  induction refs as [|r rs IH]; intros Hrefs acc; simpl.
  - rewrite app_nil_r. reflexivity.
  - destruct (In_fileNames_getFile _ _ (Hrefs r (or_introl eq_refl)))
      as [f Hf].
    unfold bind at 1. unfold bind at 1. unfold getFullText. rewrite Hf.
    simpl. rewrite IH by (intros x Hx; apply Hrefs; right; exact Hx).
    unfold statementsOf at 2. rewrite Hf. rewrite <- app_assoc. reflexivity.
Qed.

(** [write] rebuilds the index and issues one write per module of the
    project, under the module's name followed by [.ts]. *)
Lemma write_run (dir : string) (p : Project) :
  write dir p
  = (stateOf (addIndexFile p),
     Normal (map (fun r =>
                    mkWrite dir (r ++ ".ts")
                      (print (statementsOf (stateOf (addIndexFile p)) r)))
               (fileNames (stateOf (addIndexFile p))))).
Proof.
  unfold write. unfold bind at 1. rewrite addIndexFile_run. simpl.
  unfold bind at 1. unfold getSourceFiles.
  rewrite write_loop by tauto. reflexivity.
Qed.

(** [toString] leaves a module called [ContentTypes] in the project,
    whether it returns or throws. *)
Lemma toString_state (p : Project) :
  exists ss, stateOf (toString p) = setFile "ContentTypes" ss p.
Proof.
  unfold toString, bind. rewrite mergeFile_run.
  destruct (find (fun s => negb (supported s)) (mergeChildren "ContentTypes" p)).
  - eexists. reflexivity.
  - unfold getFullText. rewrite getFile_setFile_same. eexists. reflexivity.
Qed.

(** C10.  After [toString], the project holds a module [ContentTypes]
    (whether [toString] returned or threw).  A [write] that follows treats it
    as any other module: it is written as [ContentTypes.ts], and the rebuilt
    index lists [moduleName "ContentTypes"] among the members of
    [CMSEntries]. *)
Theorem toString_registers_merged_module (p : Project) (dir : string) :
  wf p ->
  let after := stateOf (toString p) in
  In "ContentTypes" (fileNames after) /\
  (~ In "ContentTypes" (fileNames p) -> after <> p) /\
  exists writes index members,
    completionOf (write dir after) = Normal writes /\
    In (mkWrite dir "ContentTypes.ts"
          (print (statementsOf (stateOf (write dir after)) "ContentTypes")))
       writes /\
    getFile "index" (stateOf (write dir after)) = Some index /\
    aliasTypes "CMSEntries" (statements index) = [renderUnionType members] /\
    In (moduleName "ContentTypes") members.
Proof.
  intros Hwf after.
  destruct (toString_state p) as [ss Hss]. fold after in Hss.
  assert (Hin : In "ContentTypes" (fileNames after))
    by (rewrite Hss; apply fileNames_setFile_In).
  assert (Hwf' : wf after) by (rewrite Hss; apply wf_setFile; exact Hwf).
  split; [exact Hin|]. split; [intros Hn E; rewrite E in Hin; tauto|].
  destruct (addIndexFile_rebuilt Hwf') as [Hrun [_ [He [Hi Ha]]]].
  assert (Hent : In "ContentTypes" (fileNames (entityFiles after))).
  { apply fileNames_entityFiles. split; [discriminate | exact Hin]. }
  eexists. eexists. exists (map moduleName (fileNames (entityFiles after))).
  rewrite write_run. simpl. split; [reflexivity|]. split.
  - apply (in_map (fun r =>
                     mkWrite dir (r ++ ".ts")
                       (print (statementsOf (stateOf (addIndexFile after)) r)))
             _ "ContentTypes").
    rewrite Hrun. simpl. apply fileNames_setFile. right. exact Hent.
  - split; [exact Hi|]. split; [exact Ha|].
    apply in_map. exact Hent.
Qed.

Lemma fileNames_appendAll (ds : list CFContentType) :
  Forall (fun d => sys_type (sys d) = "ContentType") ds ->
  forall (p : Project) (n : string),
    In n (fileNames (appendAll ds p)) <->
    In n (fileNames p) \/
    exists d, In d ds /\ n = moduleName (sys_id (sys d)).
Proof.
  induction 1 as [|d r Hd Hr IH]; intros p n; simpl.
  - split; [tauto|]. intros [H|[d [[] _]]]. exact H.
  - unfold appendAll in *. simpl. rewrite IH.
    rewrite (appendType_run d p Hd). simpl. rewrite fileNames_setFile.
    split.
    + intros [[H|H]|[x [Hx Hn]]]; eauto.
    + intros [H|[x [[Hx|Hx] Hn]]]; subst; eauto.
Qed.

Lemma wf_appendAll (ds : list CFContentType) (p : Project) :
  wf p -> wf (appendAll ds p).
Proof.
  revert p. induction ds as [|d r IH]; intros p H; simpl; [exact H|].
  apply IH. apply appendType_wf. exact H.
Qed.

(** C5, as the code has it.  For a builder to which valid descriptors were
    appended, [write] issues exactly one write per module of the project,
    each under the module's name followed by [.ts]: the index, and for each
    descriptor the module [moduleName(sys.id)] (unless that name is the
    index's).  No other file is written; a merged file is among them only
    if the project holds one. *)
Theorem write_layout (ds : list CFContentType) (dir : string) :
  Forall (fun d => sys_type (sys d) = "ContentType") ds ->
  let built := stateOf (write dir (appendAll ds emptyProject)) in
  exists writes,
    completionOf (write dir (appendAll ds emptyProject)) = Normal writes /\
    map relativePath writes
    = map (fun n => (n ++ ".ts")%string) (fileNames built) /\
    Forall (fun w => targetDir w = dir) writes /\
    NoDup (fileNames built) /\
    forall n,
      In n (fileNames built) <->
      n = "index" \/
      (n <> "index" /\
       exists d, In d ds /\ n = moduleName (sys_id (sys d))).
Proof.
  intros Hv built.
  assert (Hwf : wf (appendAll ds emptyProject))
    by (apply wf_appendAll; constructor).
  destruct (addIndexFile_rebuilt Hwf) as [Hrun [Hwf' _]].
  assert (Hb : built = stateOf (addIndexFile (appendAll ds emptyProject)))
    by (unfold built; rewrite write_run; reflexivity).
  eexists. rewrite write_run. simpl. split; [reflexivity|].
  rewrite Hb. split; [rewrite map_map; reflexivity|]. split.
  - apply Forall_forall. intros w Hw. apply in_map_iff in Hw.
    destruct Hw as [r [<- _]]. reflexivity.
  - split; [exact Hwf'|]. intros n. rewrite Hrun. simpl.
    rewrite fileNames_setFile, fileNames_entityFiles,
      (fileNames_appendAll Hv).
    simpl. tauto.
Qed.

End Writer.

(** ** [toString] on a builder that holds an entity *)

Section MergedText.

Context {TS : TsMorph} {CO : Collaborators}.

(** C3, where the code departs from it.  The file [appendType] creates holds
    the type-id constant, a variable statement, which the [switch] of
    [mergeFile] has no case for: after a valid descriptor was appended (under
    a module name other than the merged module's), [toString] throws,
    whatever else the project holds, and renders no merged module. *)
Theorem toString_after_appendType_throws (model : CFContentType)
    (p : Project) :
  wf p ->
  sys_type (sys model) = "ContentType" ->
  moduleName (sys_id (sys model)) <> "ContentTypes" ->
  exists c,
    supported c = false /\
    completionOf (toString (stateOf (appendType model p)))
    = Thrown (unhandled c).
Proof.
  intros Hwf Hv Hn.
  pose proof (appendType_file model p Hv) as Hf.
  apply getFile_Some_name in Hf. destruct Hf as [_ Hf].
  assert (Hs : In (typeIdStatement (moduleName (sys_id (sys model)))
                     (sys_id (sys model)))
                 (entityStatements model)).
  { apply (filter_In isDeclaration).
    rewrite entityStatements_declarations. simpl. tauto. }
  assert (Hin : In (typeIdStatement (moduleName (sys_id (sys model)))
                      (sys_id (sys model)))
                  (mergeChildren "ContentTypes"
                     (stateOf (appendType model p)))).
  { apply In_mergeChildren
      with (f := mkSourceFile (moduleName (sys_id (sys model)))
                   (entityStatements model));
      [apply appendType_wf; exact Hwf | exact Hf | exact Hn | exact Hs]. }
  destruct (mergeFile_throws "ContentTypes" _ _ Hin eq_refl)
    as [c [_ [Hc Hrun]]].
  exists c. split; [exact Hc|].
  unfold toString, bind. rewrite Hrun. reflexivity.
Qed.

(** C2, where the code departs from it.  For modules made by [appendType]
    the merge never gets to its imports: after a valid descriptor was
    appended (under a module name other than the merged module's),
    [mergeFile] throws at the module's type-id constant, before the loop
    that adds the pending imports, so that it returns no module and the
    merged module it leaves in the project carries no import at all, neither
    the ones that name merged declarations nor any other. *)
Theorem mergeFile_adds_no_import (model : CFContentType) (p : Project) :
  wf p ->
  sys_type (sys model) = "ContentType" ->
  moduleName (sys_id (sys model)) <> "ContentTypes" ->
  let q := stateOf (appendType model p) in
  (exists c,
     supported c = false /\
     completionOf (mergeFile "ContentTypes" q) = Thrown (unhandled c)) /\
  exists merged,
    getFile "ContentTypes" (stateOf (mergeFile "ContentTypes" q))
    = Some merged /\
    forall i, ~ In (ImportDeclaration i) (statements merged).
Proof.
  intros Hwf Hv Hn q.
  pose proof (appendType_file model p Hv) as Hf.
  apply getFile_Some_name in Hf. destruct Hf as [_ Hf]. fold q in Hf.
  assert (Hs : In (typeIdStatement (moduleName (sys_id (sys model)))
                     (sys_id (sys model)))
                 (entityStatements model)).
  { apply (filter_In isDeclaration).
    rewrite entityStatements_declarations. simpl. tauto. }
  assert (Hin : In (typeIdStatement (moduleName (sys_id (sys model)))
                      (sys_id (sys model)))
                  (mergeChildren "ContentTypes" q)).
  { apply In_mergeChildren
      with (f := mkSourceFile (moduleName (sys_id (sys model)))
                   (entityStatements model));
      [apply appendType_wf; exact Hwf | exact Hf | exact Hn | exact Hs]. }
  destruct (mergeFile_throws "ContentTypes" _ _ Hin eq_refl)
    as [c [_ [Hc Hrun]]].
  rewrite Hrun. simpl. split; [exists c; tauto|].
  eexists. split; [apply getFile_setFile_same|]. simpl.
  intros i Hi. apply filter_In in Hi. destruct Hi as [_ Hi]. discriminate.
Qed.

End MergedText.

(** * Concrete runs

    The builder on the descriptors of the specification's scenarios, with
    the naming of section 4.1 and a project that enumerates its files by
    name. *)

Section Scenarios.

#[local] Existing Instance SpecNaming.collaborators.
#[local] Existing Instance SampleProject.tsMorph.

(** [post] and [author], appended in this order. *)
Definition blog : Project := appendAll [postType; authorType] emptyProject.

(** [post] with a second field, a link to [author]. *)
Definition linkedPostType : CFContentType :=
  mkContentType "Post" "post" (mkSys "post" "ContentType")
    [titleField; mkField "author" "Author" "Link" (Some "author") false false].

(** Two modules of interfaces and type aliases only, the second importing
    from the first. *)
Definition declarationsOnly : Project :=
  [mkSourceFile "Author"
     [Interface
        (mkInterface "AuthorFields" true
           [mkProperty "name" true "Contentful.EntryFields.Symbol"])];
   mkSourceFile "Post"
     [ImportDeclaration (mkImport "./AuthorFields" None ["AuthorFields"] false);
      ImportDeclaration (mkImport "contentful" (Some "Contentful") [] false);
      Interface
        (mkInterface "PostFields" true
           [mkProperty "author" false "AuthorFields"])]].

Lemma wf_blog : wf blog.
Proof. apply wf_appendAll. constructor. Defined.

Lemma wf_declarationsOnly : wf declarationsOnly.
Proof.
  unfold wf. simpl.
  repeat constructor; simpl; intuition discriminate.
Defined.

Example moduleName_post : moduleName "post" = "Post".
Proof. reflexivity. Qed.

Example moduleName_ContentTypes : moduleName "ContentTypes" = "ContentTypes".
Proof. reflexivity. Qed.

Example blog_index :
  option_map (fun f => aliasTypes "CMSEntries" (statements f))
    (getFile "index" (stateOf (addIndexFile blog)))
  = Some ["Author | Post"].
Proof. vm_compute. reflexivity. Qed.

(** C1 does not hold for the order: [post] was appended before [author],
    and the union lists [Author] before [Post], as the project enumerates
    its files by name. *)
Lemma index_not_in_insertion_order :
  blog = appendAll [postType; authorType] emptyProject /\
  option_map (fun f => aliasTypes "CMSEntries" (statements f))
    (getFile "index" (stateOf (addIndexFile blog)))
  = Some ["Author | Post"] /\
  "Author | Post"
  <> renderUnionType
       (map (fun d => moduleName (moduleName (sys_id (sys d))))
          [postType; authorType]).
Proof.
  split; [reflexivity|]. split; vm_compute; [reflexivity | discriminate].
Qed.

Lemma index_completeness_witness :
  wf blog /\
  completionOf (addIndexFile blog) = Normal tt /\
  entityFiles (stateOf (addIndexFile blog)) = entityFiles blog.
Proof.
  split; [exact wf_blog|].
  destruct (@index_completeness _ _ blog wf_blog) as [H1 [H2 _]].
  split; [exact H1 | exact H2].
Defined.

Lemma appendType_invalid_descriptor_witness :
  sys_type (sys assetType) <> "ContentType" /\
  appendType assetType blog
  = (blog, Thrown (Error "given data is not describing a ContentType")).
Proof.
  assert (H : sys_type (sys assetType) <> "ContentType")
    by (simpl; discriminate).
  split; [exact H|].
  exact (proj1 (@appendType_invalid_descriptor _ _ assetType blog H)).
Defined.

Lemma property_optional_iff_witness :
  sys_type (sys postType) = "ContentType" /\
  exists file iface,
    getFile "Post" (stateOf (appendType postType emptyProject)) = Some file /\
    interfacesNamed "PostFields" (statements file) = [iface] /\
    Forall2
      (fun field pr =>
         prop_name pr = field_id field /\
         prop_type pr = renderProp field /\
         (hasQuestionToken pr = true <->
          field_omitted field = true \/ field_required field = false))
      [titleField] (properties iface).
Proof.
  split; [reflexivity|].
  exact (@property_optional_iff _ _ postType emptyProject eq_refl).
Defined.

Lemma appendType_idempotent_witness :
  sys_type (sys postType) = "ContentType" /\
  stateOf (appendType postType (stateOf (appendType postType blog)))
  = stateOf (appendType postType blog).
Proof.
  split; [reflexivity|].
  exact (proj1 (@appendType_idempotent _ _ postType blog eq_refl)).
Defined.

Lemma appendType_independent_witness :
  (forall x y, SpecNaming.identifier x = true ->
               SpecNaming.identifier y = true ->
               moduleName x = moduleName y -> x = y) /\
  SpecNaming.identifier (sys_id (sys postType)) = true /\
  SpecNaming.identifier (sys_id (sys authorType)) = true /\
  sys_type (sys postType) = "ContentType" /\
  sys_type (sys authorType) = "ContentType" /\
  sys_id (sys postType) <> sys_id (sys authorType) /\
  getFile "Post"
    (stateOf (appendType authorType
                (stateOf (appendType postType emptyProject))))
  = getFile "Post" (stateOf (appendType postType emptyProject)).
Proof.
  assert (H : sys_id (sys postType) <> sys_id (sys authorType))
    by discriminate.
  split; [exact SpecNaming.moduleName_collision_free|].
  split; [reflexivity|]. split; [reflexivity|].
  split; [reflexivity|]. split; [reflexivity|]. split; [exact H|].
  exact (proj1 (proj2
           (@appendType_independent _ _
              (fun s => SpecNaming.identifier s = true)
              postType authorType emptyProject
              SpecNaming.moduleName_collision_free eq_refl eq_refl
              eq_refl eq_refl H))).
Defined.

Lemma merge_unsupported_kind_is_fatal_witness :
  wf blog /\
  In (mkSourceFile "Post" (entityStatements postType)) blog /\
  In (VariableStatement "export const POST_TYPE_ID = 'post';")
     (entityStatements postType) /\
  exists c,
    completionOf (mergeFile "ContentTypes" blog)
    = Thrown (Error ("Unhandled node type '" ++ kindName (kind c) ++ "'.")).
Proof.
  assert (Hf : In (mkSourceFile "Post" (entityStatements postType)) blog)
    by (vm_compute; right; left; reflexivity).
  assert (Hs : In (VariableStatement "export const POST_TYPE_ID = 'post';")
                 (entityStatements postType))
    by (vm_compute; tauto).
  split; [exact wf_blog|]. split; [exact Hf|]. split; [exact Hs|].
  assert (K1 : kind (VariableStatement "export const POST_TYPE_ID = 'post';")
               <> KImportDeclaration) by discriminate.
  assert (K2 : kind (VariableStatement "export const POST_TYPE_ID = 'post';")
               <> KInterface) by discriminate.
  assert (K3 : kind (VariableStatement "export const POST_TYPE_ID = 'post';")
               <> KTypeAlias) by discriminate.
  assert (Hm : baseName (mkSourceFile "Post" (entityStatements postType))
               <> "ContentTypes") by discriminate.
  destruct (@merge_unsupported_kind_is_fatal _ "ContentTypes" blog
              (mkSourceFile "Post" (entityStatements postType))
              (VariableStatement "export const POST_TYPE_ID = 'post';")
              wf_blog Hf Hm Hs K1 K2 K3)
    as [c [_ [_ [_ [_ [H _]]]]]].
  exists c. exact H.
Defined.

Lemma merge_self_import_elimination_witness :
  wf declarationsOnly /\
  forallb supported (mergeChildren "ContentTypes" declarationsOnly) = true /\
  completionOf (mergeFile "ContentTypes" declarationsOnly)
  = Normal "ContentTypes".
Proof.
  split; [exact wf_declarationsOnly|]. split; [reflexivity|].
  destruct (@merge_self_import_elimination _ "ContentTypes"
              declarationsOnly wf_declarationsOnly eq_refl)
    as [draft [H _]].
  rewrite H. reflexivity.
Defined.

Example declarationsOnly_merged :
  option_map statements
    (getFile "ContentTypes" (stateOf (mergeFile "ContentTypes" declarationsOnly)))
  = Some
      [ImportDeclaration (mkImport "contentful" (Some "Contentful") [] false);
       Interface
         (mkInterface "AuthorFields" true
            [mkProperty "name" true "Contentful.EntryFields.Symbol"]);
       Interface
         (mkInterface "PostFields" true
            [mkProperty "author" false "AuthorFields"])].
Proof. vm_compute. reflexivity. Qed.

Lemma mergeFile_adds_no_import_witness :
  wf (appendAll [authorType] emptyProject) /\
  sys_type (sys linkedPostType) = "ContentType" /\
  moduleName (sys_id (sys linkedPostType)) <> "ContentTypes" /\
  exists merged,
    getFile "ContentTypes"
      (stateOf
         (mergeFile "ContentTypes"
            (stateOf
               (appendType linkedPostType
                  (appendAll [authorType] emptyProject)))))
    = Some merged /\
    forall i, ~ In (ImportDeclaration i) (statements merged).
Proof.
  assert (Hwf : wf (appendAll [authorType] emptyProject))
    by (apply wf_appendAll; constructor).
  assert (Hn : moduleName (sys_id (sys linkedPostType)) <> "ContentTypes")
    by (vm_compute; discriminate).
  split; [exact Hwf|]. split; [reflexivity|]. split; [exact Hn|].
  exact (proj2 (@mergeFile_adds_no_import _ _ linkedPostType
                  (appendAll [authorType] emptyProject) Hwf eq_refl Hn)).
Defined.

(** [author], then [post] with its link to [author]: the module [Post]
    carries the import of [./Author], whose name the module [Author]
    declares, and the import of [contentful]; [toString] throws at the
    type-id constant of [Author] and leaves a merged module without any
    import. *)
Example linked_post_is_not_merged :
  let q := appendAll [authorType; linkedPostType] emptyProject in
  map moduleSpecifier (importsOf (statementsOf q "Post"))
  = ["contentful"; "@src/types/contentful/static";
     "@contentful/rich-text-types"; "./Author"] /\
  declaredNames (statementsOf q "Author") = ["AuthorFields"; "Author"] /\
  completionOf (toString q)
  = Thrown (Error "Unhandled node type 'VariableStatement'.") /\
  statementsOf (stateOf (toString q)) "ContentTypes"
  = [Interface
       (mkInterface "AuthorFields" true
          [mkProperty "name" true "Contentful.EntryFields.Symbol"])].
Proof. vm_compute. repeat split; reflexivity. Qed.

Lemma toString_after_appendType_throws_witness :
  wf emptyProject /\
  sys_type (sys postType) = "ContentType" /\
  moduleName (sys_id (sys postType)) <> "ContentTypes" /\
  exists c,
    supported c = false /\
    completionOf (toString (stateOf (appendType postType emptyProject)))
    = Thrown (unhandled c).
Proof.
  assert (Hwf : wf emptyProject) by constructor.
  assert (Hn : moduleName (sys_id (sys postType)) <> "ContentTypes")
    by (vm_compute; discriminate).
  split; [exact Hwf|]. split; [reflexivity|]. split; [exact Hn|].
  exact (@toString_after_appendType_throws _ _ postType emptyProject Hwf
           eq_refl Hn).
Defined.

(** On the builder that holds [post], [toString] throws at the type-id
    constant of the module [Post], after copying the interface
    [PostFields] into the merged module. *)
Example toString_post_throws :
  toString (appendAll [postType] emptyProject)
  = ([mkSourceFile "ContentTypes"
        [Interface
           (mkInterface "PostFields" true
              [mkProperty "title" false "Contentful.EntryFields.Text"])];
      mkSourceFile "Post" (entityStatements postType)],
     Thrown (Error "Unhandled node type 'VariableStatement'.")).
Proof. vm_compute. reflexivity. Qed.

Lemma toString_registers_merged_module_witness :
  wf blog /\
  In "ContentTypes" (fileNames (stateOf (toString blog))) /\
  stateOf (toString blog) <> blog.
Proof.
  assert (Hn : ~ In "ContentTypes" (fileNames blog))
    by (vm_compute; intros [H|[H|[]]]; discriminate).
  split; [exact wf_blog|].
  destruct (@toString_registers_merged_module _ _ blog "out" wf_blog)
    as [H1 [H2 _]].
  split; [exact H1 | exact (H2 Hn)].
Defined.

Example blog_written_after_toString :
  option_map (map relativePath)
    (match completionOf (write "out" (stateOf (toString blog))) with
     | Normal writes => Some writes
     | Thrown _ => None
     end)
  = Some ["Author.ts"; "ContentTypes.ts"; "index.ts"; "Post.ts"].
Proof. vm_compute. reflexivity. Qed.

Example blog_index_after_toString :
  option_map (fun f => aliasTypes "CMSEntries" (statements f))
    (getFile "index" (stateOf (write "out" (stateOf (toString blog)))))
  = Some ["Author | ContentTypes | Post"].
Proof. vm_compute. reflexivity. Qed.

Lemma write_layout_witness :
  Forall (fun d => sys_type (sys d) = "ContentType") [postType; authorType] /\
  exists writes,
    completionOf (write "out" blog) = Normal writes /\
    map relativePath writes
    = map (fun n => (n ++ ".ts")%string)
        (fileNames (stateOf (write "out" blog))).
Proof.
  assert (H : Forall (fun d => sys_type (sys d) = "ContentType")
                [postType; authorType])
    by (repeat constructor).
  split; [exact H|].
  destruct (@write_layout _ _ [postType; authorType] "out" H)
    as [writes [H1 [H2 _]]].
  exists writes. split; [exact H1 | exact H2].
Defined.

(** C5 does not hold for the file name: the module of [post] is written as
    [Post.ts], after [moduleName], and no file [post.ts] is written. *)
Lemma write_names_files_after_modules :
  sys_id (sys postType) = "post" /\
  exists writes,
    completionOf (write "out" (appendAll [postType] emptyProject))
    = Normal writes /\
    map relativePath writes = ["index.ts"; "Post.ts"] /\
    ~ In "post.ts" (map relativePath writes).
Proof.
  split; [reflexivity|]. eexists. split; [vm_compute; reflexivity|].
  split; [reflexivity|]. simpl. intros [H|[H|[]]]; discriminate.
Qed.

End Scenarios.

(** * Further properties of the builder *)

(** ** Lists of statements, continued *)

Lemma In_insertImports (new : list ImportDeclarationStructure)
    (ss : list Structure) (x : Structure) :
  In x (insertImports new ss) <-> In x (map ImportDeclaration new) \/ In x ss.
Proof.
  unfold insertImports. rewrite !in_app_iff.
  rewrite <- (firstn_skipn (importInsertIndex ss) ss) at 5.
  rewrite in_app_iff. tauto.
Qed.

Lemma In_appendProperty_import (name : string)
    (pr : PropertySignatureStructure) (ss : list Structure)
    (j : ImportDeclarationStructure) :
  In (ImportDeclaration j) (appendProperty name pr ss) ->
  In (ImportDeclaration j) ss.
Proof.
  unfold appendProperty. rewrite in_map_iff. intros [s [Hs Hin]].
  destruct s; try (rewrite <- Hs; exact Hin).
  destruct (String.eqb (interface_name i) name); [discriminate|].
  rewrite <- Hs. exact Hin.
Qed.

Lemma visited_prefix (cs : list Structure) :
  exists rest, cs = visited cs ++ rest.
Proof.
  induction cs as [|c r [rest IH]]; simpl; [exists []; reflexivity|].
  destruct (supported c).
  - exists rest. simpl. rewrite <- IH. reflexivity.
  - exists (c :: r). reflexivity.
Qed.

Lemma filter_isDeclaration_isMerged (cs : list Structure) :
  filter isDeclaration (filter isMerged cs) = filter isMerged cs.
Proof.
  induction cs as [|c r IH]; simpl; [reflexivity|].
  destruct c; simpl; rewrite ?IH; reflexivity.
Qed.

Lemma declaredNames_isMerged (cs : list Structure) :
  declaredNames (filter isMerged cs) = declaredNames cs.
Proof.
  induction cs as [|c r IH]; simpl; [reflexivity|].
  destruct c; simpl; rewrite ?IH; reflexivity.
Qed.

Lemma find_app_last {A} (test : A -> bool) (l : list A) (x : A) :
  find test (l ++ [x])
  = match find test l with
    | Some y => Some y
    | None => if test x then Some x else None
    end.
Proof.
  induction l as [|a r IH]; simpl; [reflexivity|].
  destruct (test a); [reflexivity | exact IH].
Qed.

Lemma flat_map_ext_In {A B} (f g : A -> list B) (l : list A) :
  (forall a, In a l -> f a = g a) -> flat_map f l = flat_map g l.
Proof.
  induction l as [|a r IH]; simpl; [reflexivity|].
  intros H. rewrite (H a (or_introl eq_refl)), IH; [reflexivity|].
  intros x Hx. apply H. right. exact Hx.
Qed.

(** ** What the builder keeps *)

Section Invariants.

Context {TS : TsMorph} {CO : Collaborators}.

Lemma mergeFile_state (m : string) (p : Project) :
  exists ss, stateOf (mergeFile m p) = setFile m ss p.
Proof.
  rewrite mergeFile_run.
  destruct (find (fun s => negb (supported s)) (mergeChildren m p));
    eexists; reflexivity.
Qed.

(** Every method of the builder keeps the project free of clashing file
    names, whether it returns or throws. *)
Theorem builder_keeps_wf (p : Project) :
  wf p ->
  (forall model, wf (stateOf (appendType model p))) /\
  wf (stateOf (addIndexFile p)) /\
  (forall m, wf (stateOf (mergeFile m p))) /\
  wf (stateOf (toString p)) /\
  (forall dir, wf (stateOf (write dir p))).
Proof.
  intros Hwf. split; [intros model; apply appendType_wf; exact Hwf|].
  assert (Hi : wf (stateOf (addIndexFile p)))
    by (destruct (addIndexFile_rebuilt Hwf) as [_ [H _]]; exact H).
  split; [exact Hi|]. split.
  - intros m. destruct (mergeFile_state m p) as [ss ->].
    apply wf_setFile. exact Hwf.
  - split.
    + destruct (toString_state p) as [ss ->]. apply wf_setFile. exact Hwf.
    + intros dir. rewrite write_run. exact Hi.
Qed.

(** The file [appendType] leaves for a valid descriptor declares, apart
    from its imports, exactly three things, in this order: the fields
    interface [moduleFieldsName(sys.id)], the constant
    [moduleTypeIdName] of the file's name (which is [moduleName(sys.id)])
    set to the raw [sys.id], and the type alias [moduleName(sys.id)] for
    [CMSEntry] of the constant's type and the fields interface. *)
Theorem appendType_declarations (model : CFContentType) (p : Project) :
  sys_type (sys model) = "ContentType" ->
  exists file,
    getFile (moduleName (sys_id (sys model))) (stateOf (appendType model p))
    = Some file /\
    filter isDeclaration (statements file)
    = [Interface
         (mkInterface (moduleFieldsName (sys_id (sys model))) true
            (map propertySignature (fields model)));
       VariableStatement
         ("export const "
          ++ moduleTypeIdName (moduleName (sys_id (sys model)))
          ++ " = '" ++ sys_id (sys model) ++ "';");
       TypeAlias
         (mkTypeAlias (moduleName (sys_id (sys model))) true
            (renderGenericType "CMSEntry"
               ("typeof "
                ++ moduleTypeIdName (moduleName (sys_id (sys model)))
                ++ ", " ++ moduleFieldsName (sys_id (sys model)))))] /\
    declaredNames (statements file)
    = [moduleFieldsName (sys_id (sys model));
       moduleName (sys_id (sys model))].
Proof.
  intros Hv. eexists. split; [apply appendType_file; exact Hv|].
  simpl. split.
  - apply entityStatements_declarations.
  - rewrite <- declaredNames_filter, entityStatements_declarations.
    reflexivity.
Qed.

Lemma propertyEdits_import (file iface : string) (field : Field)
    (ss : list Structure) (j : ImportDeclarationStructure) :
  In (ImportDeclaration j) (propertyEdits file iface field ss) ->
  In (ImportDeclaration j) ss \/
  In (moduleSpecifier j)
    ["contentful"; "@src/types/contentful/static";
     "@contentful/rich-text-types"] \/
  In j (propertyImports field file).
Proof.
  unfold propertyEdits. intros H.
  apply In_insertImports in H. destruct H as [H|H].
  { right. right. apply in_map_iff in H. destruct H as [x [E Hx]].
    injection E as ->. exact Hx. }
  apply In_insertImports in H. destruct H as [[H|[]]|H].
  { injection H as <-. right. left. simpl. tauto. }
  destruct (includes "EntryLink" (renderProp field)); simpl in H.
  { apply In_insertImports in H. destruct H as [[H|[]]|H].
    { injection H as <-. right. left. simpl. tauto. }
    destruct (includes "Contentful." (renderProp field)); simpl in H.
    - apply In_insertImports in H. destruct H as [[H|[]]|H].
      + injection H as <-. right. left. simpl. tauto.
      + left. exact (In_appendProperty_import _ _ _ _ H).
    - left. exact (In_appendProperty_import _ _ _ _ H). }
  destruct (includes "Contentful." (renderProp field)); simpl in H.
  - apply In_insertImports in H. destruct H as [[H|[]]|H].
    + injection H as <-. right. left. simpl. tauto.
    + left. exact (In_appendProperty_import _ _ _ _ H).
  - left. exact (In_appendProperty_import _ _ _ _ H).
Qed.

Lemma properties_fold_import (file iface : string) (fs : list Field)
    (j : ImportDeclarationStructure) :
  forall ss,
    In (ImportDeclaration j)
      (fold_left (fun ss field => propertyEdits file iface field ss) fs ss) ->
    In (ImportDeclaration j) ss \/
    In (moduleSpecifier j)
      ["contentful"; "@src/types/contentful/static";
       "@contentful/rich-text-types"] \/
    exists field, In field fs /\ In j (propertyImports field file).
Proof.
  induction fs as [|f r IH]; intros ss H; simpl in *; [tauto|].
  destruct (IH _ H) as [H1|[H1|[field [Hf Hj]]]].
  - destruct (propertyEdits_import _ _ _ _ _ H1) as [H2|[H2|H2]];
      [tauto | tauto |].
    right. right. exists f. tauto.
  - tauto.
  - right. right. exists field. tauto.
Qed.

(** The imports of an entity's file come from nowhere else: each names the
    [contentful] package, the static types module, the rich-text types
    package, or a module that [propertyImports] asked for on behalf of one of
    the descriptor's fields (with the file's name as the current module). *)
Theorem appendType_import_sources (model : CFContentType) (p : Project)
    (file : SourceFile) (j : ImportDeclarationStructure) :
  sys_type (sys model) = "ContentType" ->
  getFile (moduleName (sys_id (sys model))) (stateOf (appendType model p))
  = Some file ->
  In (ImportDeclaration j) (statements file) ->
  In (moduleSpecifier j)
    ["contentful"; "@src/types/contentful/static";
     "@contentful/rich-text-types"] \/
  exists field i,
    In field (fields model) /\
    In i (propertyImports field (moduleName (sys_id (sys model)))) /\
    moduleSpecifier i = moduleSpecifier j.
Proof.
  intros Hv Hf Hj. rewrite (appendType_file model p Hv) in Hf.
  injection Hf as <-. simpl in Hj. unfold entityStatements in Hj.
  apply organize_specifiers in Hj. destruct Hj as [i [Hi Hs]].
  rewrite <- Hs. unfold entityDraft in Hi.
  apply in_app_or in Hi. destruct Hi as [Hi|Hi].
  - apply properties_fold_import in Hi.
    destruct Hi as [Hi|[Hi|[field [Hfd Hin]]]].
    + apply in_app_or in Hi. destruct Hi as [Hi|Hi].
      * left. simpl in Hi. destruct Hi as [Hi|[Hi|[]]];
          injection Hi as <-; simpl; tauto.
      * simpl in Hi. destruct Hi as [Hi|[]]. discriminate.
    + left. exact Hi.
    + right. exists field, i. tauto.
  - simpl in Hi. destruct Hi as [Hi|[Hi|[]]]; discriminate.
Qed.

(** The modules a sequence of [appendType] calls leaves: the module [n] is
    the one of the last valid descriptor appended under that module name,
    whatever was appended under it before; a name under which no valid
    descriptor was appended holds what the project held. *)
Theorem appendAll_last_wins (ds : list CFContentType) :
  forall (p : Project) (n : string),
    getFile n (appendAll ds p)
    = match find
              (fun d =>
                 String.eqb (sys_type (sys d)) "ContentType"
                 && String.eqb (moduleName (sys_id (sys d))) n)
              (rev ds) with
      | Some d => Some (mkSourceFile n (entityStatements d))
      | None => getFile n p
      end.
Proof.
  induction ds as [|d r IH]; intros p n; simpl; [reflexivity|].
  unfold appendAll in *. simpl. rewrite IH, find_app_last.
  destruct (find _ (rev r)); [reflexivity|].
  destruct (String.eqb (sys_type (sys d)) "ContentType") eqn:Ev; simpl.
  - apply String.eqb_eq in Ev.
    destruct (String.eqb (moduleName (sys_id (sys d))) n) eqn:En.
    + apply String.eqb_eq in En. subst n. apply appendType_file. exact Ev.
    + apply String.eqb_neq in En. apply appendType_other; congruence.
  - unfold appendType. rewrite Ev. reflexivity.
Qed.

End Invariants.

(** ** Rebuilding, merging and writing again *)

Section Repeats.

Context {TS : TsMorph} {CO : Collaborators}.

Lemma addIndexFile_twice (p : Project) :
  wf p -> addIndexFile (stateOf (addIndexFile p)) = addIndexFile p.
Proof.
  intros Hwf.
  destruct (addIndexFile_rebuilt Hwf) as [Hrun [Hwf' [He _]]].
  destruct (addIndexFile_rebuilt Hwf') as [Hrun' _].
  rewrite He in Hrun'. congruence.
Qed.

(** [addIndexFile] rebuilds the index from the other modules alone: what the
    old index held plays no part, and a second rebuild changes nothing. *)
Theorem addIndexFile_rebuilds_from_entities (p : Project) :
  wf p ->
  addIndexFile p = addIndexFile (entityFiles p) /\
  addIndexFile (stateOf (addIndexFile p)) = addIndexFile p.
Proof.
  intros Hwf. split; [| apply addIndexFile_twice; exact Hwf].
  destruct (addIndexFile_rebuilt Hwf) as [Hrun _].
  assert (Hwe : wf (entityFiles p)) by (apply wf_filter; exact Hwf).
  destruct (addIndexFile_rebuilt Hwe) as [Hrun' _].
  rewrite entityFiles_idempotent in Hrun'. congruence.
Qed.

(** The index module declares exactly two things: [CMSEntries], and
    [CMSManagementEntries], the union of [CMSManagementEntry] applied to
    each member of [CMSEntries], in the same order. *)
Theorem index_declarations (p : Project) :
  wf p ->
  let members := map moduleName (fileNames (entityFiles p)) in
  exists index,
    getFile "index" (stateOf (addIndexFile p)) = Some index /\
    filter isDeclaration (statements index)
    = [TypeAlias (mkTypeAlias "CMSEntries" true (renderUnionType members));
       TypeAlias
         (mkTypeAlias "CMSManagementEntries" true
            (renderUnionType
               (map (fun name => renderGenericType "CMSManagementEntry" name)
                  members)))].
Proof.
  intros Hwf members.
  destruct (addIndexFile_rebuilt Hwf) as [_ [_ [_ [Hi _]]]].
  eexists. split; [exact Hi|]. simpl.
  apply indexStatements_declarations.
Qed.

Lemma mergeChildren_setFile (m : string) (ss : list Structure) (p : Project) :
  mergeChildren m (setFile m ss p) = mergeChildren m p.
Proof.
  unfold mergeChildren.
  assert (E : mergeSources m (setFile m ss p) = mergeSources m p)
    by apply mergeSources_setFile.
  rewrite E. apply flat_map_ext_In. intros r Hr.
  unfold mergeSources in Hr. apply filter_In in Hr. destruct Hr as [_ Hr].
  apply negb_true_iff, String.eqb_neq in Hr.
  unfold statementsOf. rewrite getFile_setFile_other by exact Hr.
  reflexivity.
Qed.

(** When every child of the source modules is an import, an interface or a
    type alias, the merged module declares every interface and type alias
    of every source module, in walk order (source modules in enumeration
    order, statements in file order); declarations that share a name are
    all kept. *)
Theorem mergeFile_collects_declarations (m : string) (p : Project) :
  forallb supported (mergeChildren m p) = true ->
  exists merged,
    completionOf (mergeFile m p) = Normal m /\
    getFile m (stateOf (mergeFile m p)) = Some merged /\
    filter isDeclaration (statements merged)
    = filter isMerged (mergeChildren m p) /\
    declaredNames (statements merged) = declaredNames (mergeChildren m p).
Proof.
  intros Hs. rewrite mergeFile_run.
  apply find_unsupported_none in Hs. rewrite Hs. simpl.
  eexists. split; [reflexivity|].
  split; [apply getFile_setFile_same|]. simpl.
  assert (E : filter isDeclaration
                (organize (mkSettings true)
                   (mergedDraft (mergeChildren m p)))
              = filter isMerged (mergeChildren m p)).
  { rewrite organize_declarations, mergedDraft_eq.
    rewrite filter_isDeclaration_imports by apply forallb_isImport_map.
    apply filter_isDeclaration_isMerged. }
  split; [exact E|].
  rewrite <- declaredNames_filter, E. apply declaredNames_isMerged.
Qed.

Lemma first_unsupported_split (cs : list Structure) (c : Structure) :
  find (fun s => negb (supported s)) cs = Some c ->
  exists after,
    cs = visited cs ++ c :: after /\
    forallb supported (visited cs) = true /\ supported c = false.
Proof.
  induction cs as [|x r IH]; simpl; [discriminate|].
  destruct (supported x) eqn:E; simpl.
  - intros H. destruct (IH H) as [after [H1 [H2 H3]]].
    exists after. rewrite <- H1, E, H2. tauto.
  - intros H. injection H as <-. exists r. tauto.
Qed.

(** [mergeFile] changes no module but the merged one, whether it returns or
    throws.  When it throws, it is at the first child in walk order that is
    neither an import, nor an interface, nor a type alias; the error names
    that child's kind, and the merged module is left holding exactly the
    interfaces and type aliases among the children before it (the imports
    among them are not added: that is done after the walk). *)
Theorem mergeFile_touches_only_merged_module (m : string) (p : Project) :
  (forall n, n <> m -> getFile n (stateOf (mergeFile m p)) = getFile n p) /\
  forall e,
    completionOf (mergeFile m p) = Thrown e ->
    exists before c after,
      mergeChildren m p = before ++ c :: after /\
      forallb supported before = true /\
      supported c = false /\
      e = Error ("Unhandled node type '" ++ kindName (kind c) ++ "'.") /\
      getFile m (stateOf (mergeFile m p))
      = Some (mkSourceFile m (filter isMerged before)).
Proof.
  split.
  - intros n Hn. destruct (mergeFile_state m p) as [ss ->].
    apply getFile_setFile_other. exact Hn.
  - intros e. rewrite mergeFile_run.
    destruct (find (fun s => negb (supported s)) (mergeChildren m p))
      as [c|] eqn:E; simpl; [| discriminate].
    intros He. injection He as <-.
    destruct (first_unsupported_split _ E) as [after [H1 [H2 H3]]].
    exists (visited (mergeChildren m p)), c, after.
    split; [exact H1|]. split; [exact H2|]. split; [exact H3|].
    split; [reflexivity|]. apply getFile_setFile_same.
Qed.

(** What the merged module held before plays no part in a merge: the
    module is emptied first and it is not among the sources.  So a second
    [mergeFile], or a second [toString], gives what the first gave and
    leaves the project as the first left it. *)
Theorem mergeFile_starts_afresh (m : string) (p : Project) :
  (forall ss, mergeFile m (setFile m ss p) = mergeFile m p) /\
  mergeFile m (stateOf (mergeFile m p)) = mergeFile m p /\
  toString (stateOf (toString p)) = toString p.
Proof.
  assert (H : forall ss, mergeFile m (setFile m ss p) = mergeFile m p).
  { intros ss. rewrite !mergeFile_run, mergeChildren_setFile.
    destruct (find (fun s => negb (supported s)) (mergeChildren m p));
      rewrite setFile_setFile; reflexivity. }
  split; [exact H|]. split.
  - destruct (mergeFile_state m p) as [ss ->]. apply H.
  - destruct (toString_state p) as [ss ->].
    unfold toString, bind. rewrite !mergeFile_run, mergeChildren_setFile.
    destruct (find (fun s => negb (supported s))
                (mergeChildren "ContentTypes" p));
      rewrite setFile_setFile; reflexivity.
Qed.

(** A second [write] rebuilds the same index and issues the same writes
    (to the directory it is given), and leaves the project as the first
    left it. *)
Theorem write_again (dir dir' : string) (p : Project) :
  wf p ->
  stateOf (write dir' (stateOf (write dir p))) = stateOf (write dir p) /\
  completionOf (write dir' (stateOf (write dir p)))
  = completionOf (write dir' p).
Proof.
  intros Hwf.
  rewrite !write_run. simpl. rewrite (addIndexFile_twice Hwf).
  split; reflexivity.
Qed.


End Repeats.

(** ** Concrete runs, continued *)

Section MoreScenarios.

#[local] Existing Instance SpecNaming.collaborators.
#[local] Existing Instance SampleProject.tsMorph.

Lemma builder_keeps_wf_witness :
  wf blog /\
  wf (stateOf (toString blog)) /\
  wf (stateOf (write "out" blog)).
Proof.
  split; [exact wf_blog|].
  destruct (@builder_keeps_wf _ _ blog wf_blog) as [_ [_ [_ [H1 H2]]]].
  split; [exact H1 | exact (H2 "out")].
Defined.

Lemma appendType_declarations_witness :
  sys_type (sys postType) = "ContentType" /\
  exists file,
    getFile "Post" (stateOf (appendType postType emptyProject)) = Some file /\
    declaredNames (statements file) = ["PostFields"; "Post"].
Proof.
  split; [reflexivity|].
  destruct (@appendType_declarations _ _ postType emptyProject eq_refl)
    as [file [H1 [_ H2]]].
  exists file. split; [exact H1 | exact H2].
Defined.

Example post_declarations :
  option_map (fun f => filter isDeclaration (statements f))
    (getFile "Post" (stateOf (appendType postType emptyProject)))
  = Some
      [Interface
         (mkInterface "PostFields" true
            [mkProperty "title" false "Contentful.EntryFields.Text"]);
       VariableStatement "export const POST_TYPE_ID = 'post';";
       TypeAlias
         (mkTypeAlias "Post" true
            "CMSEntry<typeof POST_TYPE_ID, PostFields>")].
Proof. vm_compute. reflexivity. Qed.

Lemma appendType_import_sources_witness :
  sys_type (sys postType) = "ContentType" /\
  getFile "Post" (stateOf (appendType postType emptyProject))
  = Some (mkSourceFile "Post" (entityStatements postType)) /\
  In (ImportDeclaration (mkImport "contentful" (Some "Contentful") [] false))
    (entityStatements postType) /\
  (In "contentful"
     ["contentful"; "@src/types/contentful/static";
      "@contentful/rich-text-types"] \/
   exists field i,
     In field (fields postType) /\
     In i (propertyImports field "Post") /\
     moduleSpecifier i = "contentful").
Proof.
  assert (Hf : getFile (moduleName (sys_id (sys postType)))
                 (stateOf (appendType postType emptyProject))
               = Some (mkSourceFile "Post" (entityStatements postType)))
    by (vm_compute; reflexivity).
  assert (Hj : In (ImportDeclaration
                     (mkImport "contentful" (Some "Contentful") [] false))
                 (statements
                    (mkSourceFile "Post" (entityStatements postType))))
    by (vm_compute; left; reflexivity).
  split; [reflexivity|]. split; [exact Hf|]. split; [exact Hj|].
  exact (@appendType_import_sources _ _ postType emptyProject _ _ eq_refl
           Hf Hj).
Defined.

(** [post], then [post] again with a second field: the module [Post] is
    the one of the second descriptor. *)
Example last_appended_owns_module :
  getFile "Post" (appendAll [postType; linkedPostType] emptyProject)
  = Some (mkSourceFile "Post" (entityStatements linkedPostType)).
Proof. vm_compute. reflexivity. Qed.

Lemma addIndexFile_rebuilds_from_entities_witness :
  wf blog /\
  addIndexFile (stateOf (addIndexFile blog)) = addIndexFile blog.
Proof.
  split; [exact wf_blog|].
  exact (proj2 (@addIndexFile_rebuilds_from_entities _ _ blog wf_blog)).
Defined.

Lemma index_declarations_witness :
  wf blog /\
  exists index,
    getFile "index" (stateOf (addIndexFile blog)) = Some index /\
    filter isDeclaration (statements index)
    = [TypeAlias (mkTypeAlias "CMSEntries" true "Author | Post");
       TypeAlias
         (mkTypeAlias "CMSManagementEntries" true
            "CMSManagementEntry<Author> | CMSManagementEntry<Post>")].
Proof.
  split; [exact wf_blog|].
  destruct (@index_declarations _ _ blog wf_blog) as [index [H1 H2]].
  exists index. split; [exact H1|]. rewrite H2.
  vm_compute. reflexivity.
Defined.

Lemma mergeFile_collects_declarations_witness :
  forallb supported (mergeChildren "ContentTypes" declarationsOnly) = true /\
  exists merged,
    getFile "ContentTypes"
      (stateOf (mergeFile "ContentTypes" declarationsOnly))
    = Some merged /\
    declaredNames (statements merged) = ["AuthorFields"; "PostFields"].
Proof.
  split; [reflexivity|].
  destruct (@mergeFile_collects_declarations _ "ContentTypes"
              declarationsOnly eq_refl) as [merged [_ [H1 [_ H2]]]].
  exists merged. split; [exact H1 | exact H2].
Defined.

(** [toString] on the builder that holds [post] and [author] throws and
    leaves the modules [Post] and [Author] as they were. *)
Example toString_leaves_entities :
  getFile "Post" (stateOf (toString blog)) = getFile "Post" blog /\
  getFile "Author" (stateOf (toString blog)) = getFile "Author" blog.
Proof. vm_compute. split; reflexivity. Qed.

Lemma write_again_witness :
  wf blog /\
  completionOf (write "backup" (stateOf (write "out" blog)))
  = completionOf (write "backup" blog).
Proof.
  split; [exact wf_blog|].
  exact (proj2 (@write_again _ _ "out" "backup" blog wf_blog)).
Defined.


(** A [write] on the empty builder, then [toString]: the merged module
    holds the two unions of the index. *)
Example toString_after_write_on_empty_builder :
  option_map (fun f => declaredNames (statements f))
    (getFile "ContentTypes"
       (stateOf (toString (stateOf (write "out" emptyProject)))))
  = Some ["CMSEntries"; "CMSManagementEntries"].
Proof. vm_compute. reflexivity. Qed.

End MoreScenarios.
